(** * easy-express-endpoints: the endpoint lifecycle

    A shallow embedding of [src/Endpoint.ts] and of the exception classes
    under [src/exceptions/], together with the properties of the request
    pipeline that the specification states.

    Everything observable that the code does to its collaborators (the
    Express response object, the [next] continuation, the console, the
    overridable hooks of an endpoint) is recorded as an [Event]; a run of
    a method is the list of events it produced, in order. *)

From Stdlib Require Import List Ascii String ZArith Bool Lia.
Import ListNotations.
Local Open Scope string_scope.
Local Open Scope list_scope.
Local Open Scope Z_scope.

(** ** Values

    The handler returns [unknown]; the dispatcher only ever asks whether the
    value is a string ([isString]) or a readable stream
    ([isStream.isReadableStream]), so the value type keeps those shapes
    apart. *)

(** One entry of [validationResult(req).array()]. *)
Record ValidationError := mkValidationError {
  location : string;
  param : string;
  msg : string
}.

Inductive Value :=
| VUndefined
| VNull
| VBoolean (b : bool)
| VNumber (n : Z)
| VString (s : string)                       (* typeof x === 'string' *)
| VStringObject (s : string)                 (* x instanceof String *)
| VObject (json : string)                     (* any other object, by its JSON text *)
| VValidationErrors (errs : list ValidationError)   (* a ValidationError[] *)
| VReadable (chunks : list string) (failure : option string)
    (* a readable stream: the chunks it yields, then either end-of-stream
       or an error *)
| VWritable.                                 (* a stream that is not readable *)

(** [const isString = (x) => typeof x === 'string' || x instanceof String] *)
Definition isString (x : Value) : bool :=
  match x with
  | VString _ => true
  | VStringObject _ => true
  | _ => false
  end.

(** [isStream.isReadableStream] of the is-stream package; of the values
    above it accepts the Node [Readable] only. *)
Definition isReadableStream (x : Value) : bool :=
  match x with
  | VReadable _ _ => true
  | _ => false
  end.

(** ** Exceptions: [HttpException.ts], [BadRequestException.ts] *)

(** [class HttpException extends Error] with
    [constructor(public status, public override message, public info?)]. *)
Record HttpException := mkHttpException {
  status : Z;
  message : string;
  info : option Value
}.

(** [super(400, 'Bad request', validationErrors)] *)
Definition BadRequestException (validationErrors : list ValidationError)
  : HttpException :=
  mkHttpException 400 "Bad request" (Some (VValidationErrors validationErrors)).

(** What a [throw] (or a rejected promise, or [next(err)]) can carry. *)
Inductive Thrown :=
| ThrownHttp (e : HttpException)
| ThrownError (message : string)             (* new Error(message) *)
| ThrownValue (v : Value).

(** ** [types.ts] and the Express request *)

Module RequestData.
Record t := mk {
  body : Value;
  query : Value;
  params : Value;
  headers : list (string * string)
}.
End RequestData.

(** The Express [Request]. [contexts] is what the express-validator chains
    that already ran left on the request: one list of errors per chain. *)
Module Request.
Record t := mk {
  body : Value;
  query : Value;
  params : Value;
  headers : list (string * string);
  contexts : list (list ValidationError)
}.
End Request.

(** [interface ResponseHeaders { headers: Headers; status: number }];
    [headers] is kept as the sequence [Array.from(headers)] iterates. *)
Module ResponseHeaders.
Record t := mk {
  headers : list (string * string);
  status : Z
}.
End ResponseHeaders.

(** The Express [Response], as far as [setHeaders] wrote it before the
    dispatcher is called: [res.statusCode] and the headers set. *)
Module Response.
Record t := mk {
  statusCode : Z;
  headers : list (string * string)
}.
End Response.

(** [enum EndpointType { GET, POST, DELETE, PUT }] *)
Inductive EndpointType := GET | POST | DELETE | PUT.

(** [enum ResponseType { FILE = 'file', STREAM = 'stream', JSON = 'json' }]:
    a string enum, so at run time a response type is a string. *)
Definition ResponseType := string.
Definition FILE : ResponseType := "file".
Definition STREAM : ResponseType := "stream".
Definition JSON : ResponseType := "json".

(** ** Events and deferred callbacks *)

Inductive Event :=
| EvAuthMiddleware (name : string)   (* Endpoint.authMiddleware(req, res, next) *)
| EvMiddleware (name : string)       (* a shared middleware is invoked *)
| EvMiddlewareRespond (name : string) (code : Z) (payload : Value)
                                     (* a middleware answers by itself *)
| EvHeaders (data : RequestData.t)   (* this.headers(data) *)
| EvStatusCode (code : Z)            (* res.statusCode = status *)
| EvSetHeader (key value : string)   (* res.setHeader(key, value) *)
| EvExecute (data : RequestData.t)   (* this.execute(data) *)
| EvSend (data : Value)              (* res.send(data) *)
| EvSendFile (data : Value)          (* res.sendFile(data, cb) *)
| EvFileSent (file : Value)          (* this.fileSent(data) *)
| EvPassThrough                      (* new stream.PassThrough() *)
| EvPipeline (data : Value)          (* stream.pipeline(data, passThrough, cb) *)
| EvPipe                             (* passThrough.pipe(res) *)
| EvWrite (chunk : string)           (* a relayed chunk reaches res *)
| EvEnd                              (* the relay ends res *)
| EvConsoleError (text : string)     (* console.error(...) *)
| EvNext (err : option Thrown)       (* next() or next(err) *)
| EvUncaught (err : Thrown).         (* a throw no handler of the pipeline sees *)

(** ** A small monad for the effects of a method

    A computation produces events, registers callbacks, and either returns,
    throws (a rejected promise counts as a throw: every promise of the code
    is awaited), or never settles. *)

Inductive Completion (A : Type) :=
| Return (a : A)
| Throw (err : Thrown)
| Pending.
Arguments Return {A} a.
Arguments Throw {A} err.
Arguments Pending {A}.

(** The callbacks the dispatcher hands to the transport; they run after the
    synchronous part of [process] has returned. The callback of
    [res.sendFile] closes over [this.fileSent] and [data]. *)
Inductive Callback :=
| CbSendFile (fileSent : Value -> Completion unit) (data : Value)
                                     (* the callback given to res.sendFile *)
| CbPipeline (data : Value).         (* the callback given to stream.pipeline *)

Record M (A : Type) := mkM {
  trace : list Event;
  deferred : list Callback;
  result : Completion A
}.
Arguments mkM {A} trace deferred result.
Arguments trace {A} m.
Arguments deferred {A} m.
Arguments result {A} m.

Definition ret {A} (a : A) : M A := mkM [] [] (Return a).
Definition throw {A} (err : Thrown) : M A := mkM [] [] (Throw err).
Definition emit (ev : Event) : M unit := mkM [ev] [] (Return tt).
Definition defer (cb : Callback) : M unit := mkM [] [cb] (Return tt).
Definition settle {A} (c : Completion A) : M A := mkM [] [] c.

Definition bind {A B} (m : M A) (k : A -> M B) : M B :=
  match result m with
  | Return a =>
      let m' := k a in
      mkM (trace m ++ trace m') (deferred m ++ deferred m') (result m')
  | Throw err => mkM (trace m) (deferred m) (Throw err)
  | Pending => mkM (trace m) (deferred m) Pending
  end.

(** [try { m } catch (err) { handler err }] *)
Definition tryCatch {A} (m : M A) (handler : Thrown -> M A) : M A :=
  match result m with
  | Throw err =>
      let h := handler err in
      mkM (trace m ++ trace h) (deferred m ++ deferred h) (result h)
  | _ => m
  end.

Notation "x <- m ;; k" := (bind m (fun x => k))
  (at level 61, m at next level, right associativity).
Notation "m ;;; k" := (bind m (fun _ => k))
  (at level 61, right associativity).

(** ** The endpoint class *)

(** An express-validator chain, seen as what it finds wrong in a request. *)
Definition ValidationChain := Request.t -> list ValidationError.

(** What a middleware does with [(req, res, next)]: it may change the
    request, and then calls [next()], calls [next(err)], throws, or answers
    by itself without calling [next]. *)
Inductive MiddlewareAction :=
| MwNext
| MwNextError (err : Thrown)
| MwThrow (err : Thrown)
| MwRespond (code : Z) (payload : Value).

(** [type MiddlewareFunc = (req, res, next) => void]; [mwName] stands for
    the identity of the function. *)
Record MiddlewareFunc := mkMiddlewareFunc {
  mwName : string;
  mwCall : Request.t -> Request.t * MiddlewareAction
}.

(** [abstract class Endpoint]: the private fields and the methods a concrete
    endpoint supplies ([getValidator], [execute]) or may override
    ([headers], [fileSent]). *)
Record Endpoint := mkEndpoint {
  authRequired : bool;
  path : string;
  type : EndpointType;
  responseType : ResponseType;
  getValidator : list ValidationChain;
  execute : RequestData.t -> Completion Value;
  headers : RequestData.t -> Completion ResponseHeaders.t;
  fileSent : Value -> Completion unit
}.

(** The default [headers] method: [{ headers: new Headers(), status: 200 }]. *)
Definition defaultHeaders (data : RequestData.t) : Completion ResponseHeaders.t :=
  Return (ResponseHeaders.mk [] 200).

(** The default [fileSent] method: [return;]. *)
Definition defaultFileSent (file : Value) : Completion unit := Return tt.

(** The static fields [Endpoint.middlewares] and [Endpoint.authMiddleware]. *)
Record Statics := mkStatics {
  middlewares : list MiddlewareFunc;
  authMiddleware : option MiddlewareFunc
}.

(** [private static middlewares = []], [authMiddleware] undefined. *)
Definition initialStatics : Statics := mkStatics [] None.

(** [Endpoint.middlewares.push(mw)] *)
Definition registerMiddleware (mw : MiddlewareFunc) (st : Statics) : Statics :=
  mkStatics (middlewares st ++ [mw]) (authMiddleware st).

(** [Endpoint.authMiddleware = mw] *)
Definition registerAuthMiddleware (mw : MiddlewareFunc) (st : Statics) : Statics :=
  mkStatics (middlewares st) (Some mw).

(** ** The transport

    What Express and Node do when the dispatcher calls them. [res.send] and
    [res.sendFile] can throw synchronously: [res.send] when the response
    cannot be written as it stands (a status code outside 100..999, a body
    that cannot be serialised), [res.sendFile] when it does not accept its
    argument. The transfer started by [res.sendFile] ends with an error,
    ends without one, or never ends. *)
Record Transport := mkTransport {
  sendThrows : Response.t -> Value -> option Thrown;
      (* what res.send(data) throws on this response, if anything *)
  sendFileThrows : Value -> option Thrown;
      (* what res.sendFile(data, cb) throws before sending, if anything *)
  sendFileOutcome : Value -> option (option string)
      (* None: the callback is never called; Some err: it is called with err *)
}.

(** ** The methods of [Endpoint] *)

(** [validationResult(req).array()]: every error of every chain that ran,
    in the order the chains ran. *)
Definition getValidationErrors (req : Request.t) : list ValidationError :=
  List.concat (Request.contexts req).

(** [next()] and [next(err)]. *)
Definition next (err : option Thrown) : M unit := emit (EvNext err).

(** [res.statusCode = status;
     Array.from(headers).map(([key, value]) => res.setHeader(key, value))] *)
Definition setHeaders (code : Z) (hs : list (string * string)) : M unit :=
  emit (EvStatusCode code) ;;;
  mkM (map (fun kv => EvSetHeader (fst kv) (snd kv)) hs) [] (Return tt).

(** A call into Express that may throw: the call is an event, and what
    the transport throws for it, if anything, is thrown on. *)
Definition call (ev : Event) (thrown : option Thrown) : M unit :=
  emit ev ;;;
  match thrown with
  | Some err => throw err
  | None => ret tt
  end.

(** [private sendResponse(data, res)]: the [switch (this.responseType)]. *)
Definition sendResponse (tr : Transport) (this : Endpoint) (data : Value)
  (res : Response.t) : M unit :=
  if String.eqb (responseType this) JSON then
    call (EvSend data) (sendThrows tr res data)
  else if String.eqb (responseType this) FILE then
    if negb (isString data) then
      throw (ThrownError "Expected data to be a string")
    else
      call (EvSendFile data) (sendFileThrows tr data) ;;;
      defer (CbSendFile (fileSent this) data)
  else if String.eqb (responseType this) STREAM then
    emit EvPassThrough ;;;
    if negb (isReadableStream data) then
      throw (ThrownError "Expected data to be a readable stream")
    else
      emit (EvPipeline data) ;;;
      defer (CbPipeline data) ;;;
      emit EvPipe
  else
    throw (ThrownError (String.append (responseType this) " is not implemented")).

(** [private async process(req, res, next)] *)
Definition process (tr : Transport) (this : Endpoint) (req : Request.t)
  : M unit :=
  let validationErrors := getValidationErrors req in
  tryCatch
    (if (0 <? Z.of_nat (List.length validationErrors)) then
       throw (ThrownHttp (BadRequestException validationErrors))
     else
       let data := RequestData.mk (Request.body req) (Request.query req)
                     (Request.params req) (Request.headers req) in
       responseHeaders <- (emit (EvHeaders data) ;;; settle (headers this data)) ;;
       setHeaders (ResponseHeaders.status responseHeaders)
                  (ResponseHeaders.headers responseHeaders) ;;;
       result <- (emit (EvExecute data) ;;; settle (execute this data)) ;;
       sendResponse tr this result
         (Response.mk (ResponseHeaders.status responseHeaders)
                      (ResponseHeaders.headers responseHeaders)))
    (fun err => next (Some err)).

(** Calling a middleware function with [(req, res, next)]. *)
Definition callMiddleware (mw : MiddlewareFunc) (req : Request.t)
  : Request.t * M unit :=
  let '(req', action) := mwCall mw req in
  (req',
   match action with
   | MwNext => next None
   | MwNextError err => next (Some err)
   | MwThrow err => throw err
   | MwRespond code payload => emit (EvMiddlewareRespond (mwName mw) code payload)
   end).

(** [private runAuthIfNeeded(req, res, next)]; [st] holds the static fields
    as they are when the request is served. *)
Definition runAuthIfNeeded (st : Statics) (this : Endpoint) (req : Request.t)
  : Request.t * M unit :=
  match authRequired this, authMiddleware st with
  | true, Some mw =>
      let '(req', m) := callMiddleware mw req in
      (req', emit (EvAuthMiddleware (mwName mw)) ;;; m)
  | _, _ => (req, next None)
  end.

(** ** The router collaborator *)

(** The handlers [setupEndpoint] passes to [router.get] and the like. *)
Inductive RouteHandler :=
| HValidator (chain : ValidationChain)   (* an element of ...this.getValidator() *)
| HRunAuthIfNeeded (this : Endpoint)     (* this.runAuthIfNeeded.bind(this) *)
| HMiddleware (mw : MiddlewareFunc)      (* an element of ...Endpoint.middlewares *)
| HProcess (this : Endpoint).            (* this.process.bind(this) *)

Record Route := mkRoute {
  routeMethod : EndpointType;
  routePath : string;
  routeStack : list RouteHandler
}.

Definition Router := list Route.

(** [public setupEndpoint(router)]: the four cases of the switch differ only
    in the router method they call. The spread [...Endpoint.middlewares]
    copies the elements the array holds at the time of the call. *)
Definition setupEndpoint (st : Statics) (this : Endpoint) (router : Router)
  : Router :=
  let stack :=
    map HValidator (getValidator this)
    ++ [HRunAuthIfNeeded this]
    ++ map HMiddleware (middlewares st)
    ++ [HProcess this] in
  match type this with
  | GET => router ++ [mkRoute GET (path this) stack]
  | POST => router ++ [mkRoute POST (path this) stack]
  | DELETE => router ++ [mkRoute DELETE (path this) stack]
  | PUT => router ++ [mkRoute PUT (path this) stack]
  end.

(** An express-validator chain, run as a handler, records what it finds on
    the request. *)
Definition runChain (chain : ValidationChain) (req : Request.t) : Request.t :=
  Request.mk (Request.body req) (Request.query req) (Request.params req)
    (Request.headers req) (Request.contexts req ++ [chain req]).

(** One handler of a route, called by the router. An express-validator chain
    records what it finds on the request and always calls [next()]. *)
Definition handle (tr : Transport) (st : Statics) (h : RouteHandler)
  (req : Request.t) : Request.t * M unit :=
  match h with
  | HValidator chain => (runChain chain req, next None)
  | HRunAuthIfNeeded this => runAuthIfNeeded st this req
  | HMiddleware mw =>
      let '(req', m) := callMiddleware mw req in
      (req', emit (EvMiddleware (mwName mw)) ;;; m)
  | HProcess this => (req, process tr this req)
  end.

(** The first call of [next] in the events of one handler. *)
Fixpoint nextCall (evs : list Event) : option (option Thrown) :=
  match evs with
  | [] => None
  | EvNext err :: _ => Some err
  | _ :: rest => nextCall rest
  end.

(** The events of one handler as the router sees them: a synchronous throw
    of a handler is caught by the router and becomes [next(err)]. *)
Definition handlerEvents (m : M unit) : list Event :=
  trace m ++ match result m with
             | Throw err => [EvNext (Some err)]
             | _ => []
             end.

(** The values JavaScript takes for false in [if (err)]. *)
Definition isFalsyValue (v : Value) : bool :=
  match v with
  | VUndefined | VNull | VBoolean false | VNumber 0 | VString EmptyString => true
  | _ => false
  end.

Definition isFalsy (err : Thrown) : bool :=
  match err with
  | ThrownValue v => isFalsyValue v
  | _ => false
  end.

(** Does the router go on with the following handler after [next(arg)]?
    It tests [if (err)]: [next()] and [next(err)] with a falsy [err] both
    pass control on. Any other argument leaves the route: for the error
    handlers, or, for the strings 'route' and 'router', for what follows the
    route. *)
Definition resumes (arg : option Thrown) : bool :=
  match arg with
  | None => true
  | Some err => isFalsy err
  end.

(** Do the events of one handler make the router go on? *)
Definition continues (evs : list Event) : bool :=
  match nextCall evs with
  | Some arg => resumes arg
  | None => false
  end.

(** The router runs the handlers of the matched route in order; a handler
    that calls [next()], or [next(err)] with a falsy [err], passes control to
    the following one; any other [next(err)] (an error, or one of the strings
    'route' and 'router') leaves the route, and a handler that does not call
    [next] ends the walk. *)
Fixpoint dispatch (tr : Transport) (st : Statics) (stack : list RouteHandler)
  (req : Request.t) : list Event * list Callback :=
  match stack with
  | [] => ([], [])
  | h :: rest =>
      let '(req', m) := handle tr st h req in
      let evs := handlerEvents m in
      if continues evs then
        let '(evs', cbs) := dispatch tr st rest req' in
        (evs ++ evs', deferred m ++ cbs)
      else (evs, deferred m)
  end.

(** ** The deferred callbacks *)

(** The two callbacks of [sendResponse], run by the event loop. The callback
    of [res.sendFile] logs the error it is given, if any, and calls
    [this.fileSent(data)] without awaiting it: what that hook throws, or
    rejects with, is seen by no handler. For [CbPipeline] the events start
    with the relay itself: the chunks of the source reach [res], then the
    source ends or fails. *)
Definition runCallback (tr : Transport) (cb : Callback) : list Event :=
  match cb with
  | CbSendFile fileSent data =>
      match sendFileOutcome tr data with
      | None => []
      | Some failure =>
          match failure with
          | Some err => [EvConsoleError (String.append "Error sending file " err)]
          | None => []
          end ++
          EvFileSent data ::
          match fileSent data with
          | Throw err => [EvUncaught err]
          | _ => []
          end
      end
  | CbPipeline data =>
      match data with
      | VReadable chunks failure =>
          map EvWrite chunks ++
          match failure with
          | None => [EvEnd]
          | Some err =>
              [EvConsoleError "Error writing stream in image endpoint";
               EvConsoleError err;
               EvUncaught (ThrownError "Error writing stream in image endpoint")]
          end
      | _ => []
      end
  end.

(** Everything one request causes: the walk through the route, then the
    callbacks it left behind. *)
Definition serve (tr : Transport) (st : Statics) (stack : list RouteHandler)
  (req : Request.t) : list Event :=
  let '(evs, cbs) := dispatch tr st stack req in
  evs ++ flat_map (runCallback tr) cbs.

(** The events of one call of [process], callbacks included. *)
Definition processEvents (tr : Transport) (this : Endpoint) (req : Request.t)
  : list Event :=
  serve tr initialStatics [HProcess this] req.

(** ** Observations on runs *)

(** [walk tr st stack req] is the request as it leaves [stack] when every
    handler of [stack] made the router go on, and [None] when one of them
    ended the walk. *)
Fixpoint walk (tr : Transport) (st : Statics) (stack : list RouteHandler)
  (req : Request.t) : option Request.t :=
  match stack with
  | [] => Some req
  | h :: rest =>
      let '(req', m) := handle tr st h req in
      if continues (handlerEvents m) then walk tr st rest req' else None
  end.

(** The request after the validation chains ran over it. *)
Definition validate (chains : list ValidationChain) (req : Request.t)
  : Request.t :=
  fold_left (fun r chain => runChain chain r) chains req.

(** The response as [setHeaders] leaves it for the result of the header
    hook. *)
Definition responseOf (rh : ResponseHeaders.t) : Response.t :=
  Response.mk (ResponseHeaders.status rh) (ResponseHeaders.headers rh).

(** Does the router go on after this action of a middleware? *)
Definition passesOn (action : MiddlewareAction) : bool :=
  match action with
  | MwNext => true
  | MwNextError err => isFalsy err
  | MwThrow err => isFalsy err
  | MwRespond _ _ => false
  end.

(** The request data [process] builds from a request. *)
Definition dataOf (req : Request.t) : RequestData.t :=
  RequestData.mk (Request.body req) (Request.query req)
    (Request.params req) (Request.headers req).

(** The stack [setupEndpoint] registers for [this] when the shared
    middleware list holds [mws]. *)
Definition stackOf (this : Endpoint) (mws : list MiddlewareFunc)
  : list RouteHandler :=
  map HValidator (getValidator this)
  ++ [HRunAuthIfNeeded this]
  ++ map HMiddleware mws
  ++ [HProcess this].

(** The part of that stack that runs before the shared middleware. *)
Definition gateOf (this : Endpoint) : list RouteHandler :=
  map HValidator (getValidator this) ++ [HRunAuthIfNeeded this].

(** Events that put something of the response body on the wire. *)
Definition isBodyWrite (ev : Event) : bool :=
  match ev with
  | EvSend _ | EvSendFile _ | EvPipe | EvWrite _ | EvEnd => true
  | _ => false
  end.

(** The calls that hand the response over to the transport: one of them
    ends the synchronous work on a response. *)
Definition isTerminalWrite (ev : Event) : bool :=
  match ev with
  | EvSend _ | EvSendFile _ | EvPipe => true
  | _ => false
  end.

(** Events only [process] and its callbacks produce. *)
Definition isEngineEvent (ev : Event) : bool :=
  match ev with
  | EvHeaders _ | EvStatusCode _ | EvSetHeader _ _ | EvExecute _
  | EvSend _ | EvSendFile _ | EvFileSent _ | EvPassThrough | EvPipeline _
  | EvPipe | EvWrite _ | EvEnd | EvConsoleError _ | EvUncaught _ => true
  | _ => false
  end.


Definition isFileSent (ev : Event) : bool :=
  match ev with EvFileSent _ => true | _ => false end.

Definition isAuthCall (ev : Event) : bool :=
  match ev with EvAuthMiddleware _ => true | _ => false end.

Definition isErrorNext (ev : Event) : bool :=
  match ev with EvNext (Some _) => true | _ => false end.

Definition isUncaught (ev : Event) : bool :=
  match ev with EvUncaught _ => true | _ => false end.

(** The names of the shared middleware invoked during a run, in order. *)
Fixpoint middlewareCalls (evs : list Event) : list string :=
  match evs with
  | [] => []
  | EvMiddleware name :: rest => name :: middlewareCalls rest
  | _ :: rest => middlewareCalls rest
  end.

(** Does every middleware of [mws] make the router go on, each on the
    request its predecessor left? *)
Definition allPass (tr : Transport) (st : Statics) (mws : list MiddlewareFunc)
  (req : Request.t) : bool :=
  match walk tr st (map HMiddleware mws) req with
  | Some _ => true
  | None => false
  end.

(** What [process] does once the dispatcher is reached, callbacks apart:
    the events of [sendResponse], then [next(err)] if it threw. *)
Definition dispatched (tr : Transport) (this : Endpoint) (data : Value)
  (res : Response.t) : list Event :=
  trace (sendResponse tr this data res) ++
  match result (sendResponse tr this data res) with
  | Throw err => [EvNext (Some err)]
  | _ => []
  end.

(** Events of the stages that precede [process] in a route. *)
Definition isStageEvent (ev : Event) : bool :=
  match ev with
  | EvNext _ | EvAuthMiddleware _ | EvMiddleware _ | EvMiddlewareRespond _ _ _ => true
  | _ => false
  end.

(** Events [process] itself can produce. *)
Definition isProcessEvent (ev : Event) : bool :=
  match ev with
  | EvNext _ => true
  | _ => isEngineEvent ev
  end.

Definition isMiddlewareCall (ev : Event) : bool :=
  match ev with EvMiddleware _ => true | _ => false end.

Definition isProcessHandler (h : RouteHandler) : bool :=
  match h with HProcess _ => true | _ => false end.

(** The handlers of a route that come before [process]. *)
Definition beforeProcess (this : Endpoint) (mws : list MiddlewareFunc)
  : list RouteHandler :=
  gateOf this ++ map HMiddleware mws.

(** The auth stage as a request meets it: after the validation chains. *)
Definition authStage (st : Statics) (this : Endpoint) (req : Request.t)
  : Request.t * M unit :=
  runAuthIfNeeded st this (validate (getValidator this) req).

(** Events of [process] up to the call of the dispatcher, and [next]. *)
Definition isPreludeEvent (ev : Event) : bool :=
  match ev with
  | EvHeaders _ | EvStatusCode _ | EvSetHeader _ _ | EvExecute _ | EvNext _ => true
  | _ => false
  end.

(** Events of the dispatcher and of its callbacks. *)
Definition isDispatchEvent (ev : Event) : bool :=
  match ev with
  | EvSend _ | EvSendFile _ | EvFileSent _ | EvPassThrough | EvPipeline _
  | EvPipe | EvWrite _ | EvEnd | EvConsoleError _ | EvUncaught _ | EvNext _ => true
  | _ => false
  end.

(** The events of the dispatcher for one result, callbacks included. *)
Definition dispatcherEvents (tr : Transport) (this : Endpoint) (data : Value)
  (res : Response.t) : list Event :=
  dispatched tr this data res ++
  flat_map (runCallback tr) (deferred (sendResponse tr this data res)).

(** [res.statusCode = ...] and the [res.setHeader] calls of [setHeaders]. *)
Definition applied (rh : ResponseHeaders.t) : list Event :=
  EvStatusCode (ResponseHeaders.status rh) ::
  map (fun kv => EvSetHeader (fst kv) (snd kv)) (ResponseHeaders.headers rh).

(** Events of the callbacks of the dispatcher. *)
Definition isCallbackEvent (ev : Event) : bool :=
  match ev with
  | EvFileSent _ | EvWrite _ | EvEnd | EvConsoleError _ | EvUncaught _ => true
  | _ => false
  end.

(** Events that neither forward an error nor hand over the response. *)
Definition isQuiet (ev : Event) : bool :=
  negb (isErrorNext ev || isTerminalWrite ev).

(** ** Start-up: the commands that change the registry and the router *)

Inductive Command :=
| RegisterMiddleware (mw : MiddlewareFunc)      (* Endpoint.registerMiddleware(mw) *)
| RegisterAuthMiddleware (mw : MiddlewareFunc)  (* Endpoint.registerAuthMiddleware(mw) *)
| SetupEndpoint (this : Endpoint).              (* this.setupEndpoint(router) *)

Record World := mkWorld {
  statics : Statics;
  router : Router
}.

Definition exec (w : World) (c : Command) : World :=
  match c with
  | RegisterMiddleware mw => mkWorld (registerMiddleware mw (statics w)) (router w)
  | RegisterAuthMiddleware mw =>
      mkWorld (registerAuthMiddleware mw (statics w)) (router w)
  | SetupEndpoint this =>
      mkWorld (statics w) (setupEndpoint (statics w) this (router w))
  end.

Definition run (cmds : list Command) (w : World) : World :=
  fold_left exec cmds w.


(** The state of a process that has not registered anything yet. *)
Definition initialWorld : World := mkWorld initialStatics [].

(** The shared middleware a sequence of commands registers, in order. *)
Fixpoint registeredBy (cmds : list Command) : list MiddlewareFunc :=
  match cmds with
  | [] => []
  | RegisterMiddleware mw :: rest => mw :: registeredBy rest
  | _ :: rest => registeredBy rest
  end.

(** A request served by the [n]-th route of the router, with the static
    fields as they are in [w]. *)
Definition serveRoute (tr : Transport) (w : World) (n : nat) (req : Request.t)
  : list Event :=
  match nth_error (router w) n with
  | Some route => serve tr (statics w) (routeStack route) req
  | None => []
  end.

(** ** Construction of endpoints *)

(** [constructor(path, type)], with the field initialisers of the class:
    [authRequired = true] and [responseType = ResponseType.JSON]. The four
    last arguments are the methods of the concrete class. *)
Definition newEndpoint (path : string) (type : EndpointType)
  (getValidator : list ValidationChain)
  (execute : RequestData.t -> Completion Value)
  (headers : RequestData.t -> Completion ResponseHeaders.t)
  (fileSent : Value -> Completion unit) : Endpoint :=
  mkEndpoint true path type JSON getValidator execute headers fileSent.


(** [protected setResponseType(value) { this.responseType = value }] *)
Definition setResponseType (value : ResponseType) (this : Endpoint) : Endpoint :=
  mkEndpoint (authRequired this) (path this) (type this) value
    (getValidator this) (execute this) (headers this) (fileSent this).

(** The default parameter [path: string = '/'] of the four subclasses:
    [None] stands for an omitted argument. *)
Definition pathOrDefault (path : option string) : string :=
  match path with
  | Some p => p
  | None => "/"
  end.

(** [class GetEndpoint]: [super(path, EndpointType.GET)]. *)
Definition GetEndpoint (path : option string)
  (getValidator : list ValidationChain)
  (execute : RequestData.t -> Completion Value)
  (headers : RequestData.t -> Completion ResponseHeaders.t)
  (fileSent : Value -> Completion unit) : Endpoint :=
  newEndpoint (pathOrDefault path) GET getValidator execute headers fileSent.

(** [class PostEndpoint]: [super(path, EndpointType.POST)]. *)
Definition PostEndpoint (path : option string)
  (getValidator : list ValidationChain)
  (execute : RequestData.t -> Completion Value)
  (headers : RequestData.t -> Completion ResponseHeaders.t)
  (fileSent : Value -> Completion unit) : Endpoint :=
  newEndpoint (pathOrDefault path) POST getValidator execute headers fileSent.

(** [class DeleteEndpoint]: [super(path, EndpointType.DELETE)]. *)
Definition DeleteEndpoint (path : option string)
  (getValidator : list ValidationChain)
  (execute : RequestData.t -> Completion Value)
  (headers : RequestData.t -> Completion ResponseHeaders.t)
  (fileSent : Value -> Completion unit) : Endpoint :=
  newEndpoint (pathOrDefault path) DELETE getValidator execute headers fileSent.

(** [class PutEndpoint]: [super(path, EndpointType.PUT)]. *)
Definition PutEndpoint (path : option string)
  (getValidator : list ValidationChain)
  (execute : RequestData.t -> Completion Value)
  (headers : RequestData.t -> Completion ResponseHeaders.t)
  (fileSent : Value -> Completion unit) : Endpoint :=
  newEndpoint (pathOrDefault path) PUT getValidator execute headers fileSent.

(** [next()] without an argument. *)
Definition isPlainNext (ev : Event) : bool :=
  match ev with EvNext None => true | _ => false end.

Definition isSetup (c : Command) : bool :=
  match c with SetupEndpoint _ => true | _ => false end.

(** How often a run passes an error to [next], and how often it hands the
    response over. *)
Definition errorsForwarded (evs : list Event) : nat :=
  List.length (filter isErrorNext evs).

Definition terminalWrites (evs : list Event) : nat :=
  List.length (filter isTerminalWrite evs).

(** ** Sample endpoints, middleware and requests *)

Definition nameRequired : ValidationChain :=
  fun _ => [mkValidationError "body" "name" "Invalid value"].

Definition idIsInt : ValidationChain :=
  fun _ => [mkValidationError "body" "id" "Invalid value"].

Definition noComplaint : ValidationChain := fun _ => [].

Definition passing (name : string) : MiddlewareFunc :=
  mkMiddlewareFunc name (fun req => (req, MwNext)).

Definition denying (name : string) : MiddlewareFunc :=
  mkMiddlewareFunc name (fun req => (req, MwRespond 401 (VString "denied"))).

Definition plainRequest : Request.t :=
  Request.mk (VObject "{}") (VObject "{}") (VObject "{}") [] [].

(** A transport on which nothing throws and every file goes out. *)
Definition plainTransport : Transport :=
  mkTransport (fun _ _ => None) (fun _ => None) (fun _ => Some None).

(** A transport on which nothing throws and every file transfer fails. *)
Definition failingTransport : Transport :=
  mkTransport (fun _ _ => None) (fun _ => None)
    (fun _ => Some (Some "Error: EPIPE")).

(** [path.isAbsolute] on a POSIX host. *)
Definition posixAbsolute (path : string) : bool :=
  match path with
  | String c _ => Ascii.eqb c "/"%char
  | EmptyString => false
  end.

(** The checks [res.sendFile] of Express makes on its argument before it
    sends anything (no [root] option is given by the dispatcher). *)
Definition expressSendFileCheck (data : Value) : option Thrown :=
  if isFalsyValue data then
    Some (ThrownError "path argument is required to res.sendFile")
  else
    match data with
    | VString path =>
        if posixAbsolute path then None
        else Some (ThrownError
                     "path must be absolute or specify root to res.sendFile")
    | _ => Some (ThrownError "path must be a string to res.sendFile")
    end.

(** The check Node makes on [res.statusCode] when the head of the response
    is written. *)
Definition nodeStatusCheck (res : Response.t) (data : Value) : option Thrown :=
  if (Response.statusCode res <? 100) || (999 <? Response.statusCode res)
  then Some (ThrownError "Invalid status code")
  else None.

(** Express on a POSIX host, with transfers that succeed. *)
Definition expressOnPosix : Transport :=
  mkTransport nodeStatusCheck expressSendFileCheck (fun _ => Some None).

(** POST /items, validated, answering JSON. *)
Definition itemsEndpoint : Endpoint :=
  mkEndpoint true "/items" POST JSON [nameRequired; idIsInt]
    (fun _ => Return (VObject "{id:5}")) defaultHeaders defaultFileSent.

(** GET /items/5, not validated, answering JSON with two headers. *)
Definition itemEndpoint : Endpoint :=
  mkEndpoint false "/items/5" GET JSON [noComplaint]
    (fun _ => Return (VObject "{id:5}"))
    (fun _ => Return (ResponseHeaders.mk
                        [("cache-control", "no-store"); ("x-api", "1")] 201))
    defaultFileSent.

(** GET /download, answering a file. *)
Definition downloadEndpoint : Endpoint :=
  mkEndpoint true "/download" GET FILE []
    (fun _ => Return (VString "/tmp/report.pdf")) defaultHeaders defaultFileSent.

(** GET /export, declared as a stream but returning a number. *)
Definition exportEndpoint : Endpoint :=
  mkEndpoint true "/export" GET STREAM []
    (fun _ => Return (VNumber 42)) defaultHeaders defaultFileSent.

(** GET /image, streaming a source that fails after its first chunk. *)
Definition imageEndpoint : Endpoint :=
  mkEndpoint true "/image" GET STREAM []
    (fun _ => Return (VReadable ["chunk"] (Some "Error: EIO"))) defaultHeaders
    defaultFileSent.

(** An endpoint whose response type is outside the enum. *)
Definition xmlEndpoint : Endpoint :=
  mkEndpoint true "/feed" GET "xml" []
    (fun _ => Return (VString "<feed/>")) defaultHeaders defaultFileSent.

Definition registry (auth : option MiddlewareFunc) (mws : list MiddlewareFunc)
  : Statics :=
  mkStatics mws auth.

(** A handler that throws, behind a header hook that sets two headers. *)
Definition brokenEndpoint : Endpoint :=
  mkEndpoint false "/broken" GET JSON []
    (fun _ => Throw (ThrownError "boom"))
    (fun _ => Return (ResponseHeaders.mk [("x-api", "1")] 202)) defaultFileSent.

(** A handler that never settles. *)
Definition stalledEndpoint : Endpoint :=
  mkEndpoint false "/stalled" GET JSON [] (fun _ => Pending) defaultHeaders
    defaultFileSent.

(** GET /report, answering a file named by a relative path. *)
Definition reportEndpoint : Endpoint :=
  mkEndpoint false "/report" GET FILE []
    (fun _ => Return (VString "reports/report.pdf")) defaultHeaders
    defaultFileSent.

(** GET /audited, answering a file, with an overridden [fileSent] that
    rejects. *)
Definition auditedEndpoint : Endpoint :=
  mkEndpoint false "/audited" GET FILE []
    (fun _ => Return (VString "/tmp/report.pdf")) defaultHeaders
    (fun _ => Throw (ThrownError "audit log unavailable")).

(** A JSON endpoint whose header hook gives a status Node refuses. *)
Definition oddStatusEndpoint : Endpoint :=
  mkEndpoint false "/odd" GET JSON []
    (fun _ => Return (VObject "{}"))
    (fun _ => Return (ResponseHeaders.mk [] 99999)) defaultFileSent.

(** A handler that throws [undefined]. *)
Definition voidThrowEndpoint : Endpoint :=
  mkEndpoint false "/void" GET JSON []
    (fun _ => Throw (ThrownValue VUndefined)) defaultHeaders defaultFileSent.


(** A middleware that calls [next(err)]. *)
Definition failing (name : string) : MiddlewareFunc :=
  mkMiddlewareFunc name (fun req => (req, MwNextError (ThrownError "unauthorized"))).

(** A middleware that calls [next(err)] with [err] undefined. *)
Definition shrugging (name : string) : MiddlewareFunc :=
  mkMiddlewareFunc name (fun req => (req, MwNextError (ThrownValue VUndefined))).

(** * Properties *)

(** ** Lists of events *)

Section EventLists.

Variable P : Event -> bool.



End EventLists.

(** ** [sendResponse], case by case *)

Lemma sendResponse_json (tr : Transport) (this : Endpoint) (data : Value)
  (res : Response.t) :
  responseType this = JSON ->
  sendResponse tr this data res =
    mkM [EvSend data] []
      match sendThrows tr res data with
      | Some err => Throw err
      | None => Return tt
      end.
Proof.
  intros H. unfold sendResponse. rewrite H. simpl.
  unfold call. destruct (sendThrows tr res data); reflexivity.
Qed.

Lemma sendResponse_file (tr : Transport) (this : Endpoint) (data : Value)
  (res : Response.t) :
  responseType this = FILE ->
  sendResponse tr this data res =
    if isString data
    then match sendFileThrows tr data with
         | Some err => mkM [EvSendFile data] [] (Throw err)
         | None =>
             mkM [EvSendFile data] [CbSendFile (fileSent this) data] (Return tt)
         end
    else mkM [] [] (Throw (ThrownError "Expected data to be a string")).
Proof.
  intros H. unfold sendResponse. rewrite H. simpl.
  destruct (isString data); [|reflexivity].
  unfold call. destruct (sendFileThrows tr data); reflexivity.
Qed.

Lemma sendResponse_stream (tr : Transport) (this : Endpoint) (data : Value)
  (res : Response.t) :
  responseType this = STREAM ->
  sendResponse tr this data res =
    if isReadableStream data
    then mkM [EvPassThrough; EvPipeline data; EvPipe] [CbPipeline data] (Return tt)
    else mkM [EvPassThrough] []
           (Throw (ThrownError "Expected data to be a readable stream")).
Proof.
  intros H. unfold sendResponse. rewrite H. simpl.
  destruct (isReadableStream data); reflexivity.
Qed.

Lemma sendResponse_other (tr : Transport) (this : Endpoint) (data : Value)
  (res : Response.t) :
  responseType this <> JSON ->
  responseType this <> FILE ->
  responseType this <> STREAM ->
  sendResponse tr this data res =
    mkM [] []
      (Throw (ThrownError (String.append (responseType this) " is not implemented"))).
Proof.
  intros HJ HF HS. unfold sendResponse.
  apply String.eqb_neq in HJ, HF, HS.
  rewrite HJ, HF, HS. reflexivity.
Qed.

(** [sendResponse] returns or throws; it does not wait for anything. *)
Lemma sendResponse_settles (tr : Transport) (this : Endpoint) (data : Value)
  (res : Response.t) :
  result (sendResponse tr this data res) <> Pending.
Proof.
  unfold sendResponse, call.
  destruct (String.eqb (responseType this) JSON);
    [destruct (sendThrows tr res data); discriminate|].
  destruct (String.eqb (responseType this) FILE).
  - destruct (isString data); [|discriminate].
    destruct (sendFileThrows tr data); discriminate.
  - destruct (String.eqb (responseType this) STREAM); [|discriminate].
    destruct (isReadableStream data); discriminate.
Qed.

(** The response type is one of the three of the enum, or it is not. *)
Lemma responseType_cases (this : Endpoint) :
  responseType this = JSON \/ responseType this = FILE \/
  responseType this = STREAM \/
  (responseType this <> JSON /\ responseType this <> FILE /\
   responseType this <> STREAM).
Proof.
  destruct (String.eqb_spec (responseType this) JSON); auto.
  destruct (String.eqb_spec (responseType this) FILE); auto.
  destruct (String.eqb_spec (responseType this) STREAM); auto.
  right; right; right; auto.
Qed.

(** ** [process], unfolded *)

Lemma getValidationErrors_test (req : Request.t) :
  (0 <? Z.of_nat (List.length (getValidationErrors req))) =
  match getValidationErrors req with [] => false | _ => true end.
Proof.
  destruct (getValidationErrors req); simpl; [reflexivity|].
  apply Z.ltb_lt. lia.
Qed.

Lemma process_invalid (tr : Transport) (this : Endpoint) (req : Request.t) :
  getValidationErrors req <> [] ->
  process tr this req =
    mkM [EvNext (Some (ThrownHttp (BadRequestException (getValidationErrors req))))]
      [] (Return tt).
Proof.
  intros H. unfold process. rewrite getValidationErrors_test.
  destruct (getValidationErrors req) as [|e errs]; [contradiction|].
  reflexivity.
Qed.

Lemma process_valid_trace (tr : Transport) (this : Endpoint) (req : Request.t) :
  getValidationErrors req = [] ->
  trace (process tr this req) =
    EvHeaders (dataOf req) ::
    match headers this (dataOf req) with
    | Return rh =>
        EvStatusCode (ResponseHeaders.status rh) ::
        map (fun kv => EvSetHeader (fst kv) (snd kv)) (ResponseHeaders.headers rh)
        ++ EvExecute (dataOf req) ::
           match execute this (dataOf req) with
           | Return v => dispatched tr this v (responseOf rh)
           | Throw err => [EvNext (Some err)]
           | Pending => []
           end
    | Throw err => [EvNext (Some err)]
    | Pending => []
    end.
Proof.
  intros H. unfold process. rewrite getValidationErrors_test, H.
  fold (dataOf req). unfold dispatched.
  destruct (headers this (dataOf req)) as [rh|err|]; try reflexivity.
  fold (responseOf rh).
  destruct (execute this (dataOf req)) as [v|err|].
  - unfold tryCatch, bind, setHeaders, emit, settle; simpl.
    fold (responseOf rh).
    destruct (result (sendResponse tr this v (responseOf rh))); simpl;
      rewrite <- ?app_assoc; simpl; rewrite ?app_nil_r; reflexivity.
  - unfold tryCatch, bind, setHeaders, emit, settle, next; simpl.
    rewrite <- ?app_assoc. reflexivity.
  - unfold tryCatch, bind, setHeaders, emit, settle, next; simpl.
    rewrite ?app_nil_r. reflexivity.
Qed.

Lemma process_valid_deferred (tr : Transport) (this : Endpoint) (req : Request.t) :
  getValidationErrors req = [] ->
  deferred (process tr this req) =
    match headers this (dataOf req) with
    | Return rh =>
        match execute this (dataOf req) with
        | Return v => deferred (sendResponse tr this v (responseOf rh))
        | _ => []
        end
    | _ => []
    end.
Proof.
  intros H. unfold process. rewrite getValidationErrors_test, H.
  fold (dataOf req).
  destruct (headers this (dataOf req)) as [rh|err|]; try reflexivity.
  destruct (execute this (dataOf req)) as [v|err|]; try reflexivity.
  unfold tryCatch, bind, setHeaders, emit, settle; simpl.
  fold (responseOf rh).
  destruct (result (sendResponse tr this v (responseOf rh))); simpl;
    rewrite ?app_nil_r; reflexivity.
Qed.

(** [process] never throws out of its [try]: it settles or stays pending. *)
Lemma process_result (tr : Transport) (this : Endpoint) (req : Request.t) :
  result (process tr this req) = Return tt \/ result (process tr this req) = Pending.
Proof.
  unfold process. rewrite getValidationErrors_test. fold (dataOf req).
  destruct (getValidationErrors req); [|left; reflexivity].
  destruct (headers this (dataOf req)) as [rh|err|];
    [|left; reflexivity|right; reflexivity].
  destruct (execute this (dataOf req)) as [v|err|];
    [|left; reflexivity|right; reflexivity].
  unfold tryCatch, bind, setHeaders, emit, settle, next; simpl.
  fold (responseOf rh).
  destruct (result (sendResponse tr this v (responseOf rh))) as [[]|err|];
    simpl; auto.
Qed.

(** ** The walk through a route *)

Lemma forallb_weaken {A} (P Q : A -> bool) (l : list A) :
  (forall a, P a = true -> Q a = true) ->
  forallb P l = true -> forallb Q l = true.
Proof.
  intros HPQ H. rewrite forallb_forall in *. auto.
Qed.

Lemma dispatch_app (tr : Transport) (st : Statics) (s1 s2 : list RouteHandler) (req : Request.t) :
  dispatch tr st (s1 ++ s2) req =
    match walk tr st s1 req with
    | Some req' =>
        (fst (dispatch tr st s1 req) ++ fst (dispatch tr st s2 req'),
         snd (dispatch tr st s1 req) ++ snd (dispatch tr st s2 req'))
    | None => dispatch tr st s1 req
    end.
Proof.
  revert req. induction s1 as [|h s1 IH]; intros req; simpl.
  - destruct (dispatch tr st s2 req); reflexivity.
  - destruct (handle tr st h req) as [req' m].
    destruct (continues (handlerEvents m)); try reflexivity.
    rewrite IH. destruct (walk tr st s1 req') as [req''|].
    + destruct (dispatch tr st s1 req'), (dispatch tr st s2 req''); simpl.
      rewrite !app_assoc. reflexivity.
    + destruct (dispatch tr st s1 req'); reflexivity.
Qed.

Lemma walk_app (tr : Transport) (st : Statics) (s1 s2 : list RouteHandler) (req : Request.t) :
  walk tr st (s1 ++ s2) req =
    match walk tr st s1 req with
    | Some req' => walk tr st s2 req'
    | None => None
    end.
Proof.
  revert req. induction s1 as [|h s1 IH]; intros req; simpl; [reflexivity|].
  destruct (handle tr st h req) as [req' m].
  destruct (continues (handlerEvents m)); auto.
Qed.

(** The validation chains never end the walk: each records its findings on
    the request and calls [next()]. *)
Lemma validate_step (c : ValidationChain) (cs : list ValidationChain)
  (req : Request.t) :
  validate (c :: cs) req = validate cs (runChain c req).
Proof. reflexivity. Qed.

Lemma walk_validators (tr : Transport) (st : Statics) (cs : list ValidationChain) (req : Request.t) :
  walk tr st (map HValidator cs) req = Some (validate cs req).
Proof.
  revert req. induction cs as [|c cs IH]; intros req; [reflexivity|].
  simpl map. simpl walk. rewrite IH, validate_step. reflexivity.
Qed.

Lemma dispatch_validators (tr : Transport) (st : Statics) (cs : list ValidationChain)
  (req : Request.t) :
  dispatch tr st (map HValidator cs) req =
    (repeat (EvNext None) (List.length cs), []).
Proof.
  revert req. induction cs as [|c cs IH]; intros req; [reflexivity|].
  simpl map. simpl dispatch. rewrite IH. reflexivity.
Qed.

(** The validation adapter returns, for a fresh request, what the chains
    found, chain after chain. *)
Lemma validate_contexts (cs : list ValidationChain) (req : Request.t) :
  exists found,
    Request.contexts (validate cs req) = Request.contexts req ++ found /\
    List.length found = List.length cs.
Proof.
  revert req. induction cs as [|c cs IH]; intros req.
  - exists []. simpl. rewrite app_nil_r. auto.
  - rewrite validate_step.
    destruct (IH (runChain c req)) as (found & Hc & Hl).
    exists (c req :: found). simpl in *.
    rewrite Hc, <- app_assoc. simpl. auto.
Qed.

(** ** What each stage can emit *)

Lemma callMiddleware_events (mw : MiddlewareFunc) (req : Request.t) :
  forallb isStageEvent (handlerEvents (snd (callMiddleware mw req))) = true /\
  forallb (fun e => negb (isMiddlewareCall e))
    (handlerEvents (snd (callMiddleware mw req))) = true /\
  forallb (fun e => negb (isAuthCall e))
    (handlerEvents (snd (callMiddleware mw req))) = true /\
  deferred (snd (callMiddleware mw req)) = [].
Proof.
  unfold callMiddleware. destruct (mwCall mw req) as [req' []]; simpl; auto.
Qed.

Lemma handlerEvents_emit (ev : Event) (m : M unit) :
  handlerEvents (emit ev ;;; m) = ev :: handlerEvents m.
Proof. reflexivity. Qed.

(** What the dispatcher does in [process]: calls on the response, the
    set-up of the relay, and [next(err)] with what it threw. *)
Lemma dispatched_events (tr : Transport) (this : Endpoint) (data : Value)
  (res : Response.t) :
  forallb (fun e => isDispatchEvent e && negb (isPlainNext e))
    (dispatched tr this data res) = true.
Proof.
  unfold dispatched, sendResponse, call.
  destruct (String.eqb (responseType this) JSON);
    [destruct (sendThrows tr res data); reflexivity|].
  destruct (String.eqb (responseType this) FILE).
  - destruct (isString data); [|reflexivity].
    destruct (sendFileThrows tr data); reflexivity.
  - destruct (String.eqb (responseType this) STREAM); [|reflexivity].
    destruct (isReadableStream data); reflexivity.
Qed.

Lemma process_events (tr : Transport) (this : Endpoint) (req : Request.t) :
  forallb isProcessEvent (handlerEvents (process tr this req)) = true.
Proof.
  unfold handlerEvents.
  assert (Htrace : forallb isProcessEvent (trace (process tr this req)) = true).
  { destruct (getValidationErrors req) as [|e errs] eqn:E.
    - rewrite process_valid_trace by assumption. simpl.
      destruct (headers this (dataOf req)) as [rh|err|]; simpl; auto.
      rewrite forallb_app. apply andb_true_intro. split.
      + rewrite forallb_forall. intros x Hx. apply in_map_iff in Hx.
        destruct Hx as (kv & <- & _). reflexivity.
      + simpl. destruct (execute this (dataOf req)) as [v|err|]; simpl; auto.
        generalize (dispatched_events tr this v (responseOf rh)).
        apply forallb_weaken. intros [] H; simpl in *; auto; discriminate.
    - rewrite process_invalid by (rewrite E; discriminate). reflexivity. }
  destruct (process_result tr this req) as [-> | ->]; rewrite app_nil_r;
    exact Htrace.
Qed.

Lemma runCallback_events (tr : Transport) (cb : Callback) :
  forallb isCallbackEvent (runCallback tr cb) = true.
Proof.
  destruct cb as [hook data|data]; simpl.
  - destruct (sendFileOutcome tr data) as [[err|]|]; simpl;
      destruct (hook data); reflexivity.
  - destruct data; try reflexivity.
    rewrite forallb_app. apply andb_true_intro. split.
    + rewrite forallb_forall. intros x Hx. apply in_map_iff in Hx.
      destruct Hx as (c & <- & _). reflexivity.
    + destruct failure; reflexivity.
Qed.

Lemma callbacks_events (tr : Transport) (cbs : list Callback) :
  forallb isCallbackEvent (flat_map (runCallback tr) cbs) = true.
Proof.
  induction cbs as [|cb cbs IH]; simpl; [reflexivity|].
  rewrite forallb_app, runCallback_events, IH. reflexivity.
Qed.

(** A stack without [process] emits stage events only and leaves no
    callback behind. *)
Lemma dispatch_stage_events (tr : Transport) (st : Statics) (stack : list RouteHandler)
  (req : Request.t) :
  forallb (fun h => negb (isProcessHandler h)) stack = true ->
  forallb isStageEvent (fst (dispatch tr st stack req)) = true /\
  snd (dispatch tr st stack req) = [].
Proof.
  revert req. induction stack as [|h stack IH]; intros req Hs; [simpl; auto|].
  simpl in Hs. apply andb_prop in Hs as [Hh Hs].
  assert (Hev : forallb isStageEvent (handlerEvents (snd (handle tr st h req))) = true
                /\ deferred (snd (handle tr st h req)) = []).
  { destruct h as [c|this|mw|this]; simpl in *; try discriminate.
    - auto.
    - unfold runAuthIfNeeded.
      destruct (authRequired this), (authMiddleware st) as [mw|]; auto.
      destruct (callMiddleware_events mw req) as (H1 & _ & _ & H2).
      destruct (callMiddleware mw req) as [req' m]. simpl in *.
      unfold handlerEvents in H1. auto.
    - destruct (callMiddleware_events mw req) as (H1 & _ & _ & H2).
      destruct (callMiddleware mw req) as [req' m]. simpl in *.
      unfold handlerEvents in H1. auto. }
  simpl. destruct (handle tr st h req) as [req' m]. simpl in Hev.
  destruct Hev as [Hev Hd].
  destruct (continues (handlerEvents m)); simpl; auto.
  destruct (IH req' Hs) as [IH1 IH2].
  destruct (dispatch tr st stack req') as [evs' cbs]. simpl in *.
  rewrite forallb_app, Hev, IH1, Hd, IH2. auto.
Qed.

Lemma dispatch_single (tr : Transport) (st : Statics) (h : RouteHandler) (req : Request.t) :
  dispatch tr st [h] req =
    (handlerEvents (snd (handle tr st h req)), deferred (snd (handle tr st h req))).
Proof.
  simpl. destruct (handle tr st h req) as [req' m]. simpl.
  destruct (continues (handlerEvents m)); try reflexivity.
  rewrite !app_nil_r. reflexivity.
Qed.

Lemma walk_single (tr : Transport) (st : Statics) (h : RouteHandler) (req : Request.t) :
  walk tr st [h] req =
    if continues (handlerEvents (snd (handle tr st h req)))
    then Some (fst (handle tr st h req))
    else None.
Proof.
  simpl. destruct (handle tr st h req) as [req' m]. reflexivity.
Qed.

Lemma serve_process (tr : Transport) (st : Statics) (this : Endpoint)
  (req : Request.t) :
  serve tr st [HProcess this] req = processEvents tr this req.
Proof.
  unfold processEvents, serve. rewrite !dispatch_single. reflexivity.
Qed.

Lemma processEvents_unfold (tr : Transport) (this : Endpoint) (req : Request.t) :
  processEvents tr this req =
    trace (process tr this req) ++
    flat_map (runCallback tr) (deferred (process tr this req)).
Proof.
  unfold processEvents, serve. rewrite dispatch_single. simpl.
  unfold handlerEvents.
  destruct (process_result tr this req) as [-> | ->]; rewrite app_nil_r; reflexivity.
Qed.

(** The stack of a route is the stages before [process], then [process]. *)
Lemma stackOf_split (this : Endpoint) (mws : list MiddlewareFunc) :
  stackOf this mws = beforeProcess this mws ++ [HProcess this].
Proof.
  unfold stackOf, beforeProcess, gateOf. rewrite <- !app_assoc. reflexivity.
Qed.

Lemma beforeProcess_no_process (this : Endpoint) (mws : list MiddlewareFunc) :
  forallb (fun h => negb (isProcessHandler h)) (beforeProcess this mws) = true.
Proof.
  unfold beforeProcess, gateOf. rewrite !forallb_app. simpl.
  rewrite andb_true_r. apply andb_true_intro. split;
    rewrite forallb_forall; intros h Hh; apply in_map_iff in Hh;
    destruct Hh as (x & <- & _); reflexivity.
Qed.

(** One request through a route: the stages before [process], then, if all
    of them called [next()], [process] and its callbacks. *)
Lemma serve_stackOf (tr : Transport) (st : Statics) (this : Endpoint)
  (mws : list MiddlewareFunc) (req : Request.t) :
  serve tr st (stackOf this mws) req =
    fst (dispatch tr st (beforeProcess this mws) req) ++
    match walk tr st (beforeProcess this mws) req with
    | Some req' => processEvents tr this req'
    | None => []
    end.
Proof.
  unfold serve. rewrite stackOf_split, dispatch_app.
  destruct (dispatch_stage_events tr st (beforeProcess this mws) req
              (beforeProcess_no_process this mws)) as [_ Hcb].
  destruct (walk tr st (beforeProcess this mws) req) as [req'|].
  - rewrite <- serve_process with (st := st). unfold serve.
    destruct (dispatch tr st (beforeProcess this mws) req) as [evs cbs].
    cbn [fst snd] in *. subst cbs.
    destruct (dispatch tr st [HProcess this] req') as [evs' cbs'].
    cbn [fst snd]. rewrite <- app_assoc. reflexivity.
  - destruct (dispatch tr st (beforeProcess this mws) req) as [evs cbs].
    cbn [fst snd] in *. subst cbs. simpl. reflexivity.
Qed.

(** The stages before [process]: the chains, the auth stage, and, if that
    one made the router go on, the shared middleware. *)
Lemma dispatch_beforeProcess (tr : Transport) (st : Statics) (this : Endpoint)
  (mws : list MiddlewareFunc) (req : Request.t) :
  fst (dispatch tr st (beforeProcess this mws) req) =
    repeat (EvNext None) (List.length (getValidator this)) ++
    handlerEvents (snd (authStage st this req)) ++
    if continues (handlerEvents (snd (authStage st this req)))
    then fst (dispatch tr st (map HMiddleware mws) (fst (authStage st this req)))
    else [].
Proof.
  unfold beforeProcess, gateOf. rewrite <- app_assoc.
  rewrite dispatch_app, walk_validators, dispatch_validators. simpl fst.
  f_equal. change ([HRunAuthIfNeeded this] ++ map HMiddleware mws)
    with (HRunAuthIfNeeded this :: map HMiddleware mws).
  simpl dispatch. fold (authStage st this req).
  destruct (authStage st this req) as [req1 m]. simpl fst. simpl snd.
  destruct (continues (handlerEvents m)); simpl;
    rewrite ?app_nil_r; try reflexivity.
  destruct (dispatch tr st (map HMiddleware mws) req1); reflexivity.
Qed.

Lemma walk_beforeProcess (tr : Transport) (st : Statics) (this : Endpoint)
  (mws : list MiddlewareFunc) (req : Request.t) :
  walk tr st (beforeProcess this mws) req =
    if continues (handlerEvents (snd (authStage st this req)))
    then walk tr st (map HMiddleware mws) (fst (authStage st this req))
    else None.
Proof.
  unfold beforeProcess, gateOf. rewrite <- app_assoc.
  rewrite walk_app, walk_validators.
  change ([HRunAuthIfNeeded this] ++ map HMiddleware mws)
    with (HRunAuthIfNeeded this :: map HMiddleware mws).
  simpl walk. fold (authStage st this req).
  destruct (authStage st this req) as [req1 m]. reflexivity.
Qed.

(** ** The shared middleware stage *)

Lemma middlewareCalls_app (l1 l2 : list Event) :
  middlewareCalls (l1 ++ l2) = middlewareCalls l1 ++ middlewareCalls l2.
Proof.
  induction l1 as [|e l1 IH]; [reflexivity|].
  destruct e; simpl; rewrite ?IH; reflexivity.
Qed.

Lemma middlewareCalls_none (l : list Event) :
  forallb (fun e => negb (isMiddlewareCall e)) l = true ->
  middlewareCalls l = [].
Proof.
  induction l as [|e l IH]; [reflexivity|].
  simpl. intros H. apply andb_prop in H as [He Hl].
  destruct e; simpl in *; try discriminate; auto.
Qed.


(** The shared middleware are invoked in the order of the list, each after
    its predecessor called [next()]: the calls are a prefix of the list,
    and the whole list when all of them call [next()]. *)
Lemma dispatch_middlewares (tr : Transport) (st : Statics) (mws : list MiddlewareFunc)
  (req : Request.t) :
  exists k : nat,
    middlewareCalls (fst (dispatch tr st (map HMiddleware mws) req)) =
      map mwName (firstn k mws) /\
    (allPass tr st mws req = true -> k = List.length mws) /\
    forallb (fun e => negb (isAuthCall e))
      (fst (dispatch tr st (map HMiddleware mws) req)) = true.
Proof.
  unfold allPass. revert req.
  induction mws as [|mw mws IH]; intros req.
  - exists 0%nat. simpl. auto.
  - simpl map. simpl dispatch. simpl walk.
    destruct (callMiddleware_events mw req) as (_ & Hm & Ha & _).
    destruct (callMiddleware mw req) as [req' m]. simpl in Hm, Ha.
    rewrite handlerEvents_emit.
    change (continues (EvMiddleware (mwName mw) :: handlerEvents m))
      with (continues (handlerEvents m)).
    destruct (continues (handlerEvents m)).
    + destruct (IH req') as (k & Hk & Hall & Hauth).
      exists (S k). destruct (dispatch tr st (map HMiddleware mws) req') as [evs cbs].
      simpl in *. rewrite middlewareCalls_app, (middlewareCalls_none _ Hm), Hk.
      split; [reflexivity|]. split.
      * intros H. rewrite (Hall H). reflexivity.
      * rewrite forallb_app, Ha, Hauth. reflexivity.
    + exists 1%nat. simpl. rewrite (middlewareCalls_none _ Hm).
      split; [reflexivity|]. split; [discriminate|exact Ha].
Qed.

(** ** Which events come from where *)

Lemma processEvents_kinds (tr : Transport) (this : Endpoint) (req : Request.t) :
  forallb isProcessEvent (processEvents tr this req) = true.
Proof.
  unfold processEvents, serve. rewrite dispatch_single. simpl fst. simpl snd.
  rewrite forallb_app, process_events. simpl.
  apply forallb_weaken with (P := isCallbackEvent); [|apply callbacks_events].
  intros [] H; simpl in *; auto; discriminate.
Qed.

Lemma not_auth_call (l : list Event) (name : string) :
  forallb (fun e => negb (isAuthCall e)) l = true ->
  ~ In (EvAuthMiddleware name) l.
Proof.
  intros H Hin. rewrite forallb_forall in H.
  specialize (H _ Hin). discriminate.
Qed.

Lemma authStage_unfold (st : Statics) (this : Endpoint) (req : Request.t) :
  handlerEvents (snd (authStage st this req)) =
    match authRequired this, authMiddleware st with
    | true, Some mw =>
        EvAuthMiddleware (mwName mw) ::
        handlerEvents
          (snd (callMiddleware mw (validate (getValidator this) req)))
    | _, _ => [EvNext None]
    end.
Proof.
  unfold authStage, runAuthIfNeeded.
  destruct (authRequired this), (authMiddleware st) as [mw|]; try reflexivity.
  destruct (callMiddleware mw (validate (getValidator this) req)) as [req' m].
  reflexivity.
Qed.

Lemma authStage_calls (st : Statics) (this : Endpoint) (req : Request.t)
  (name : string) :
  In (EvAuthMiddleware name) (handlerEvents (snd (authStage st this req))) <->
  authRequired this = true /\
  exists mw, authMiddleware st = Some mw /\ mwName mw = name.
Proof.
  rewrite authStage_unfold.
  destruct (authRequired this), (authMiddleware st) as [mw|]; simpl.
  - split.
    + intros [H|H].
      * inversion H. split; [reflexivity|]. exists mw. auto.
      * destruct (callMiddleware_events mw (validate (getValidator this) req))
          as (_ & _ & Ha & _).
        exfalso. exact (not_auth_call _ _ Ha H).
    + intros (_ & mw' & Hmw & <-). inversion Hmw. auto.
  - split; [intros [H|[]]; discriminate | intros (_ & mw & H & _); discriminate].
  - split; [intros [H|[]]; discriminate | intros (H & _); discriminate].
  - split; [intros [H|[]]; discriminate | intros (H & _); discriminate].
Qed.


(** When the stages before [process] all call [next()], every shared
    middleware of the route was invoked, in the order of the list. *)
Lemma beforeProcess_calls (tr : Transport) (st : Statics) (this : Endpoint)
  (mws : list MiddlewareFunc) (req req' : Request.t) :
  walk tr st (beforeProcess this mws) req = Some req' ->
  middlewareCalls (fst (dispatch tr st (beforeProcess this mws) req)) =
    map mwName mws.
Proof.
  rewrite walk_beforeProcess, dispatch_beforeProcess. intros Hw.
  rewrite !middlewareCalls_app.
  assert (Hrep : middlewareCalls
                   (repeat (EvNext None) (List.length (getValidator this))) = []).
  { apply middlewareCalls_none. rewrite forallb_forall.
    intros e He. apply repeat_spec in He. subst e. reflexivity. }
  assert (Hauth : middlewareCalls (handlerEvents (snd (authStage st this req))) = []).
  { apply middlewareCalls_none. rewrite authStage_unfold.
    destruct (authRequired this), (authMiddleware st) as [mw|]; try reflexivity.
    simpl. apply (callMiddleware_events mw). }
  rewrite Hrep, Hauth. simpl.
  destruct (continues (handlerEvents (snd (authStage st this req))));
    try discriminate.
  destruct (dispatch_middlewares tr st mws (fst (authStage st this req)))
    as (k & Hk & Hall & _).
  rewrite Hk, Hall, firstn_all; [reflexivity|].
  unfold allPass. rewrite Hw. reflexivity.
Qed.

(** A request that some stage before [process] stops never reaches the
    engine: the header hook, the handler and the dispatcher stay idle. *)
Lemma stopped_before_process (tr : Transport) (st : Statics) (this : Endpoint)
  (mws : list MiddlewareFunc) (req : Request.t) :
  walk tr st (beforeProcess this mws) req = None ->
  serve tr st (stackOf this mws) req =
    fst (dispatch tr st (beforeProcess this mws) req) /\
  forallb isStageEvent (serve tr st (stackOf this mws) req) = true.
Proof.
  intros Hw. rewrite serve_stackOf, Hw, app_nil_r. split; [reflexivity|].
  apply dispatch_stage_events, beforeProcess_no_process.
Qed.

(** ** The exception model *)

(** C4. A [BadRequestException] built from an error list has status 400 and
    carries in [info] that whole list, in the same order; and the exception
    [process] forwards for a request with validation errors is the one built
    from everything the validation adapter returned for it. *)
Theorem bad_request_exception_carries_every_error (tr : Transport)
  (errs : list ValidationError) (this : Endpoint) (req : Request.t) :
  status (BadRequestException errs) = 400 /\
  info (BadRequestException errs) = Some (VValidationErrors errs) /\
  (getValidationErrors req <> [] ->
   getValidationErrors req = List.concat (Request.contexts req) /\
   nextCall (trace (process tr this req)) =
     Some (Some (ThrownHttp (BadRequestException (getValidationErrors req))))).
Proof.
  split; [reflexivity|split; [reflexivity|]].
  intros H. split; [reflexivity|].
  rewrite process_invalid by assumption. reflexivity.
Qed.

Lemma bad_request_exception_carries_every_error_witness :
  getValidationErrors (validate (getValidator itemsEndpoint) plainRequest) <> [] /\
  nextCall (trace (process plainTransport itemsEndpoint
                     (validate (getValidator itemsEndpoint) plainRequest))) =
    Some (Some (ThrownHttp (mkHttpException 400 "Bad request"
      (Some (VValidationErrors
               [mkValidationError "body" "name" "Invalid value";
                mkValidationError "body" "id" "Invalid value"]))))).
Proof.
  split; [discriminate|].
  apply (bad_request_exception_carries_every_error plainTransport []
           itemsEndpoint (validate (getValidator itemsEndpoint) plainRequest)).
  discriminate.
Defined.

(** ** Validation failures *)

(** C1, as the code has it. The validation result is looked at in
    [process], the last handler of the route: for a request that reaches it
    with one or more validation errors, the whole run is the stages before
    [process] followed by a single [next(err)] whose [err] is the
    [BadRequestException] of status 400 carrying every error; the header
    hook, the handler and the dispatcher do not run. By then the auth
    middleware (when required and registered) and every shared middleware of
    the route have been invoked. *)
Theorem validation_failure_is_raised_by_process
  (tr : Transport) (st : Statics) (this : Endpoint)
  (mws : list MiddlewareFunc) (req req' : Request.t) :
  walk tr st (beforeProcess this mws) req = Some req' ->
  getValidationErrors req' <> [] ->
  let before := fst (dispatch tr st (beforeProcess this mws) req) in
  let err := BadRequestException (getValidationErrors req') in
  serve tr st (stackOf this mws) req = before ++ [EvNext (Some (ThrownHttp err))] /\
  status err = 400 /\
  info err = Some (VValidationErrors (getValidationErrors req')) /\
  forallb isStageEvent before = true /\
  middlewareCalls before = map mwName mws /\
  (forall mw, authRequired this = true -> authMiddleware st = Some mw ->
              In (EvAuthMiddleware (mwName mw)) before).
Proof.
  intros Hw Herrs before err.
  split; [|split; [reflexivity|split; [reflexivity|split; [|split]]]].
  - rewrite serve_stackOf, Hw, processEvents_unfold.
    rewrite process_invalid by assumption. reflexivity.
  - apply dispatch_stage_events, beforeProcess_no_process.
  - exact (beforeProcess_calls tr st this mws req req' Hw).
  - intros mw Hreq Hmw. unfold before.
    rewrite dispatch_beforeProcess, !in_app_iff. right; left.
    apply authStage_calls. split; [assumption|]. exists mw. auto.
Qed.

Lemma validation_failure_is_raised_by_process_witness :
  serve plainTransport (registry (Some (passing "auth")) [passing "A"; passing "B"])
    (stackOf itemsEndpoint [passing "A"; passing "B"]) plainRequest =
  [EvNext None; EvNext None; EvAuthMiddleware "auth"; EvNext None;
   EvMiddleware "A"; EvNext None; EvMiddleware "B"; EvNext None] ++
  [EvNext (Some (ThrownHttp (BadRequestException
     [mkValidationError "body" "name" "Invalid value";
      mkValidationError "body" "id" "Invalid value"])))].
Proof.
  apply (validation_failure_is_raised_by_process plainTransport
           (registry (Some (passing "auth")) [passing "A"; passing "B"])
           itemsEndpoint [passing "A"; passing "B"] plainRequest
           (validate (getValidator itemsEndpoint) plainRequest)).
  - reflexivity.
  - discriminate.
Defined.

(** C1 as stated fails: for a request the validation adapter rejects, the
    auth middleware and a shared middleware are invoked all the same. *)
Lemma validation_failure_does_not_stop_auth_and_middleware :
  getValidationErrors (validate (getValidator itemsEndpoint) plainRequest) <> [] /\
  ~ (forallb (fun e => negb (isAuthCall e || isMiddlewareCall e))
       (serve plainTransport (registry (Some (passing "auth")) [passing "A"])
          (stackOf itemsEndpoint [passing "A"]) plainRequest) = true).
Proof.
  split; [discriminate|].
  vm_compute. discriminate.
Qed.

(** ** The auth gate *)



(** ** One call of [process] *)

Lemma processEvents_invalid (tr : Transport) (this : Endpoint) (req : Request.t) :
  getValidationErrors req <> [] ->
  processEvents tr this req =
    [EvNext (Some (ThrownHttp (BadRequestException (getValidationErrors req))))].
Proof.
  intros H. rewrite processEvents_unfold, process_invalid by assumption.
  reflexivity.
Qed.

Lemma processEvents_valid (tr : Transport) (this : Endpoint) (req : Request.t) :
  getValidationErrors req = [] ->
  processEvents tr this req =
    EvHeaders (dataOf req) ::
    match headers this (dataOf req) with
    | Return rh =>
        applied rh ++
        EvExecute (dataOf req) ::
        match execute this (dataOf req) with
        | Return v => dispatcherEvents tr this v (responseOf rh)
        | Throw err => [EvNext (Some err)]
        | Pending => []
        end
    | Throw err => [EvNext (Some err)]
    | Pending => []
    end.
Proof.
  intros H.
  rewrite processEvents_unfold, process_valid_trace, process_valid_deferred
    by assumption.
  unfold applied, dispatcherEvents.
  destruct (headers this (dataOf req)) as [rh|err|]; try reflexivity.
  destruct (execute this (dataOf req)) as [v|err|]; simpl;
    rewrite <- ?app_assoc; simpl; rewrite ?app_nil_r; reflexivity.
Qed.

Lemma applied_prelude (rh : ResponseHeaders.t) :
  forallb isPreludeEvent (applied rh) = true.
Proof.
  unfold applied. simpl. rewrite forallb_forall.
  intros e He. apply in_map_iff in He. destruct He as (kv & <- & _). reflexivity.
Qed.


(** A kind of event that the steps of [process] before the dispatcher never
    produce occurs in a call of [process] only if the dispatcher produces it
    for the handler's result. *)
Lemma processEvents_only_dispatcher (P : Event -> bool) (tr : Transport)
  (this : Endpoint) (req : Request.t) :
  (forall e, isPreludeEvent e = true -> P e = false) ->
  (forall v res, execute this (dataOf req) = Return v ->
                 forallb (fun e => negb (P e)) (dispatcherEvents tr this v res)
                 = true) ->
  forallb (fun e => negb (P e)) (processEvents tr this req) = true.
Proof.
  intros Hpre Hdisp.
  assert (Hw : forall l, forallb isPreludeEvent l = true ->
                         forallb (fun e => negb (P e)) l = true).
  { intros l. apply forallb_weaken. intros e He. rewrite (Hpre e He). reflexivity. }
  destruct (getValidationErrors req) as [|e errs] eqn:E.
  - rewrite processEvents_valid by assumption.
    change (forallb (fun e => negb (P e)) ([EvHeaders (dataOf req)] ++
      match headers this (dataOf req) with
      | Return rh => applied rh ++ [EvExecute (dataOf req)] ++
          match execute this (dataOf req) with
          | Return v => dispatcherEvents tr this v (responseOf rh)
          | Throw err => [EvNext (Some err)]
          | Pending => []
          end
      | Throw err => [EvNext (Some err)]
      | Pending => []
      end) = true).
    rewrite forallb_app, (Hw [EvHeaders (dataOf req)] eq_refl). cbn [andb].
    destruct (headers this (dataOf req)) as [rh|err|];
      [|apply (Hw [EvNext (Some err)] eq_refl)|reflexivity].
    rewrite !forallb_app, (Hw _ (applied_prelude rh)),
      (Hw [EvExecute (dataOf req)] eq_refl). cbn [andb].
    destruct (execute this (dataOf req)) as [v|err|];
      [apply Hdisp; reflexivity|apply (Hw [EvNext (Some err)] eq_refl)|reflexivity].
  - rewrite processEvents_invalid by (rewrite E; discriminate).
    apply Hw. reflexivity.
Qed.


(** ** Headers before handler before body *)



(** ** The response dispatcher *)

Lemma prelude_not_body (e : Event) :
  isPreludeEvent e = true -> isBodyWrite e = false.
Proof. destruct e; simpl; auto; discriminate. Qed.

(** C5, as the code has it. With response type FILE: a result that is not a
    string makes the dispatcher throw "Expected data to be a string" without
    calling [res.sendFile] or registering a callback. A string is handed to
    [res.sendFile]. When [res.sendFile] refuses it on the spot, the error it
    throws goes to [next] and [fileSent] is not called. Otherwise, when the
    transfer is over, whether with an error or not, [fileSent] is called
    exactly once, with that string; an error of the transfer is written to
    the console and nothing is passed to [next]; the only error that can
    escape is one the [fileSent] hook itself raises. *)
Theorem file_response_calls_fileSent_once
  (tr : Transport) (this : Endpoint) (data : Value) (res : Response.t) :
  responseType this = FILE ->
  (isString data = false ->
   sendResponse tr this data res =
     mkM [] [] (Throw (ThrownError "Expected data to be a string")) /\
   dispatcherEvents tr this data res =
     [EvNext (Some (ThrownError "Expected data to be a string"))]) /\
  (isString data = true ->
   (forall err,
      sendFileThrows tr data = Some err ->
      dispatcherEvents tr this data res = [EvSendFile data; EvNext (Some err)]) /\
   (sendFileThrows tr data = None ->
    sendResponse tr this data res =
      mkM [EvSendFile data] [CbSendFile (fileSent this) data] (Return tt) /\
    (sendFileOutcome tr data = None ->
     dispatcherEvents tr this data res = [EvSendFile data]) /\
    (forall failure,
       sendFileOutcome tr data = Some failure ->
       dispatcherEvents tr this data res =
         EvSendFile data ::
         match failure with
         | Some text => [EvConsoleError (String.append "Error sending file " text)]
         | None => []
         end ++
         EvFileSent data ::
         match fileSent this data with
         | Throw err => [EvUncaught err]
         | _ => []
         end /\
       filter isFileSent (dispatcherEvents tr this data res) = [EvFileSent data] /\
       forallb (fun e => negb (isErrorNext e)) (dispatcherEvents tr this data res)
         = true /\
       (forall err, In (EvUncaught err) (dispatcherEvents tr this data res) ->
                    fileSent this data = Throw err)))).
Proof.
  intros Hfile. unfold dispatcherEvents, dispatched.
  rewrite (sendResponse_file tr this data res Hfile).
  split; intros Hs; rewrite Hs; simpl; [auto|].
  split.
  - intros err ->. reflexivity.
  - intros ->. simpl. split; [reflexivity|]. split.
    + intros ->. reflexivity.
    + intros failure ->. rewrite app_nil_r.
      destruct failure as [text|], (fileSent this data) as [[]|err|]; simpl;
        repeat split; try reflexivity;
        intros e Hin; repeat (destruct Hin as [Hin|Hin]; try discriminate);
        try contradiction; inversion Hin; reflexivity.
Qed.

Lemma file_response_calls_fileSent_once_witness :
  dispatcherEvents failingTransport downloadEndpoint (VString "/tmp/report.pdf")
    (Response.mk 200 []) =
    [EvSendFile (VString "/tmp/report.pdf");
     EvConsoleError "Error sending file Error: EPIPE";
     EvFileSent (VString "/tmp/report.pdf")] /\
  dispatcherEvents failingTransport downloadEndpoint (VNumber 7)
    (Response.mk 200 []) =
    [EvNext (Some (ThrownError "Expected data to be a string"))] /\
  dispatcherEvents expressOnPosix downloadEndpoint (VString "reports/report.pdf")
    (Response.mk 200 []) =
    [EvSendFile (VString "reports/report.pdf");
     EvNext (Some (ThrownError
                     "path must be absolute or specify root to res.sendFile"))].
Proof.
  destruct (file_response_calls_fileSent_once failingTransport downloadEndpoint
              (VString "/tmp/report.pdf") (Response.mk 200 []) eq_refl)
    as [_ H1].
  destruct (file_response_calls_fileSent_once failingTransport downloadEndpoint
              (VNumber 7) (Response.mk 200 []) eq_refl) as [H2 _].
  destruct (file_response_calls_fileSent_once expressOnPosix downloadEndpoint
              (VString "reports/report.pdf") (Response.mk 200 []) eq_refl)
    as [_ H3].
  split; [|split].
  - destruct (proj2 (H1 eq_refl) eq_refl) as (_ & _ & Hdone).
    exact (proj1 (Hdone (Some "Error: EPIPE") eq_refl)).
  - exact (proj2 (H2 eq_refl)).
  - exact (proj1 (H3 eq_refl) _ eq_refl).
Defined.

(** C5 as stated fails: a handler result that is a string need not be sent.
    Express's [res.sendFile] refuses a relative path, and a [String] object,
    before it sends anything; the error goes to [next] and [fileSent] is
    never called. *)
Lemma string_result_can_be_refused_by_sendFile :
  isString (VString "reports/report.pdf") = true /\
  processEvents expressOnPosix reportEndpoint plainRequest =
    [EvHeaders (dataOf plainRequest); EvStatusCode 200;
     EvExecute (dataOf plainRequest);
     EvSendFile (VString "reports/report.pdf");
     EvNext (Some (ThrownError
                     "path must be absolute or specify root to res.sendFile"))] /\
  ~ In (EvFileSent (VString "reports/report.pdf"))
       (processEvents expressOnPosix reportEndpoint plainRequest) /\
  isString (VStringObject "/tmp/report.pdf") = true /\
  dispatcherEvents expressOnPosix downloadEndpoint (VStringObject "/tmp/report.pdf")
    (Response.mk 200 []) =
    [EvSendFile (VStringObject "/tmp/report.pdf");
     EvNext (Some (ThrownError "path must be a string to res.sendFile"))].
Proof.
  split; [reflexivity|]. split; [reflexivity|]. split.
  - intros Hin. repeat (destruct Hin as [Hin|Hin]; try discriminate).
    contradiction.
  - split; reflexivity.
Qed.

(** C6. With response type STREAM, a result that is not a readable stream
    makes the dispatcher throw "Expected data to be a readable stream"; no
    relay is set up, and in the whole run of [process] for such a request
    nothing of a body is written. *)
Theorem stream_response_requires_readable_stream
  (tr : Transport) (this : Endpoint) (data : Value) (res : Response.t) :
  responseType this = STREAM ->
  isReadableStream data = false ->
  sendResponse tr this data res =
    mkM [EvPassThrough] []
      (Throw (ThrownError "Expected data to be a readable stream")) /\
  dispatcherEvents tr this data res =
    [EvPassThrough;
     EvNext (Some (ThrownError "Expected data to be a readable stream"))] /\
  (forall req,
     execute this (dataOf req) = Return data ->
     forallb (fun e => negb (isBodyWrite e)) (processEvents tr this req) = true).
Proof.
  intros Hstream Hdata.
  assert (Hd : forall r, dispatcherEvents tr this data r =
               [EvPassThrough;
                EvNext (Some (ThrownError "Expected data to be a readable stream"))]).
  { intros r. unfold dispatcherEvents, dispatched.
    rewrite (sendResponse_stream tr this data r Hstream), Hdata. reflexivity. }
  split; [|split; [apply Hd|]].
  - rewrite (sendResponse_stream tr this data res Hstream), Hdata. reflexivity.
  - intros req Hexec.
    apply processEvents_only_dispatcher; [exact prelude_not_body|].
    intros v r Hv. rewrite Hexec in Hv. inversion Hv; subst v.
    rewrite Hd. reflexivity.
Qed.

Lemma stream_response_requires_readable_stream_witness :
  processEvents plainTransport exportEndpoint plainRequest =
    [EvHeaders (dataOf plainRequest); EvStatusCode 200;
     EvExecute (dataOf plainRequest); EvPassThrough;
     EvNext (Some (ThrownError "Expected data to be a readable stream"))] /\
  forallb (fun e => negb (isBodyWrite e))
    (processEvents plainTransport exportEndpoint plainRequest) = true.
Proof.
  split; [reflexivity|].
  exact (proj2 (proj2 (stream_response_requires_readable_stream plainTransport
                         exportEndpoint (VNumber 42) (Response.mk 200 [])
                         eq_refl eq_refl))
           plainRequest eq_refl).
Defined.

(** C7. When the response type of the endpoint is none of JSON, FILE and
    STREAM, the dispatcher throws an error whose message is the response
    type followed by " is not implemented", and in the whole run of
    [process] nothing of a body is written. *)
Theorem unknown_response_type_is_not_implemented
  (tr : Transport) (this : Endpoint) (data : Value) (res : Response.t) :
  responseType this <> JSON ->
  responseType this <> FILE ->
  responseType this <> STREAM ->
  sendResponse tr this data res =
    mkM [] []
      (Throw (ThrownError (String.append (responseType this) " is not implemented"))) /\
  dispatcherEvents tr this data res =
    [EvNext (Some (ThrownError
       (String.append (responseType this) " is not implemented")))] /\
  (forall req,
     forallb (fun e => negb (isBodyWrite e)) (processEvents tr this req) = true).
Proof.
  intros HJ HF HS.
  assert (Hs : forall v r, sendResponse tr this v r =
    mkM [] []
      (Throw (ThrownError (String.append (responseType this) " is not implemented")))).
  { intros v r. apply sendResponse_other; assumption. }
  split; [apply Hs|split].
  - unfold dispatcherEvents, dispatched. rewrite Hs. reflexivity.
  - intros req.
    apply processEvents_only_dispatcher; [exact prelude_not_body|].
    intros v r _. unfold dispatcherEvents, dispatched. rewrite Hs. reflexivity.
Qed.

Lemma unknown_response_type_is_not_implemented_witness :
  dispatcherEvents plainTransport xmlEndpoint (VString "<feed/>")
    (Response.mk 200 []) =
    [EvNext (Some (ThrownError "xml is not implemented"))].
Proof.
  apply (unknown_response_type_is_not_implemented plainTransport xmlEndpoint
           (VString "<feed/>") (Response.mk 200 [])); discriminate.
Defined.

(** ** The shared middleware of a route *)

Lemma gate_calls_no_middleware (tr : Transport) (st : Statics) (this : Endpoint) (req : Request.t) :
  middlewareCalls (fst (dispatch tr st (gateOf this) req)) = [].
Proof.
  unfold gateOf.
  rewrite dispatch_app, walk_validators, dispatch_validators, dispatch_single.
  simpl fst. rewrite middlewareCalls_app.
  replace (middlewareCalls (repeat (EvNext None) (List.length (getValidator this))))
    with (@nil string).
  - simpl handle. fold (authStage st this req). apply middlewareCalls_none.
    rewrite authStage_unfold.
    destruct (authRequired this), (authMiddleware st) as [mw|]; try reflexivity.
    simpl. apply (callMiddleware_events mw).
  - symmetry. apply middlewareCalls_none. rewrite forallb_forall.
    intros e He. apply repeat_spec in He. subst e. reflexivity.
Qed.

Lemma process_calls_no_middleware (tr : Transport) (this : Endpoint)
  (req : Request.t) :
  middlewareCalls (processEvents tr this req) = [].
Proof.
  apply middlewareCalls_none.
  apply forallb_weaken with (P := isProcessEvent); [|apply processEvents_kinds].
  intros [] He; simpl in *; auto; discriminate.
Qed.

(** A request through a route, stage by stage. *)
Lemma serve_stages (tr : Transport) (st : Statics) (this : Endpoint)
  (mws : list MiddlewareFunc) (req : Request.t) :
  serve tr st (stackOf this mws) req =
    fst (dispatch tr st (gateOf this) req) ++
    match walk tr st (gateOf this) req with
    | Some req1 =>
        fst (dispatch tr st (map HMiddleware mws) req1) ++
        match walk tr st (map HMiddleware mws) req1 with
        | Some req2 => processEvents tr this req2
        | None => []
        end
    | None => []
    end.
Proof.
  rewrite serve_stackOf. unfold beforeProcess.
  rewrite dispatch_app, walk_app.
  destruct (walk tr st (gateOf this) req) as [req1|].
  - simpl fst. rewrite <- app_assoc. reflexivity.
  - rewrite app_nil_r. reflexivity.
Qed.


Lemma setupEndpoint_route (st : Statics) (this : Endpoint) (r : Router) :
  setupEndpoint st this r =
    r ++ [mkRoute (type this) (path this) (stackOf this (middlewares st))].
Proof.
  unfold setupEndpoint, stackOf. destruct (type this); reflexivity.
Qed.

(** C8, as the code has it. The route of an endpoint holds the shared
    middleware that were registered when [setupEndpoint] was called, in the
    order of their registration, between the auth stage and [process]. For
    a request that reaches the middleware stage they are invoked in that
    order, none twice and none out of turn, each one once its predecessor
    called [next()]: the calls are an initial part of the list, the whole
    list when every one of them calls [next()], and only then [process]
    runs. *)
Theorem shared_middleware_run_in_registration_order
  (tr : Transport) (st0 st : Statics) (this : Endpoint) (req req1 : Request.t) :
  walk tr st (gateOf this) req = Some req1 ->
  let mws := middlewares st0 in
  let stage := fst (dispatch tr st (map HMiddleware mws) req1) in
  (forall r, setupEndpoint st0 this r =
             r ++ [mkRoute (type this) (path this) (stackOf this mws)]) /\
  (forall mw, middlewares (registerMiddleware mw st0) = mws ++ [mw]) /\
  serve tr st (stackOf this mws) req =
    fst (dispatch tr st (gateOf this) req) ++ stage ++
    (if allPass tr st mws req1
     then match walk tr st (map HMiddleware mws) req1 with
          | Some req2 => processEvents tr this req2
          | None => []
          end
     else []) /\
  (exists k : nat,
     middlewareCalls stage = map mwName (firstn k mws) /\
     middlewareCalls (serve tr st (stackOf this mws) req) =
       map mwName (firstn k mws) /\
     (allPass tr st mws req1 = true -> k = List.length mws)) /\
  (allPass tr st mws req1 = true ->
   middlewareCalls (serve tr st (stackOf this mws) req) = map mwName mws).
Proof.
  intros Hgate mws stage.
  assert (Hserve : serve tr st (stackOf this mws) req =
    fst (dispatch tr st (gateOf this) req) ++ stage ++
    (if allPass tr st mws req1
     then match walk tr st (map HMiddleware mws) req1 with
          | Some req2 => processEvents tr this req2
          | None => []
          end
     else [])).
  { rewrite serve_stages, Hgate. unfold allPass.
    destruct (walk tr st (map HMiddleware mws) req1); reflexivity. }
  destruct (dispatch_middlewares tr st mws req1) as (k & Hk & Hall & _).
  assert (Hcalls : middlewareCalls (serve tr st (stackOf this mws) req) =
                   map mwName (firstn k mws)).
  { rewrite Hserve, !middlewareCalls_app, gate_calls_no_middleware.
    fold stage in Hk. rewrite Hk. simpl.
    destruct (allPass tr st mws req1); [|apply app_nil_r].
    destruct (walk tr st (map HMiddleware mws) req1);
      rewrite ?process_calls_no_middleware; apply app_nil_r. }
  split; [intros r; apply setupEndpoint_route|].
  split; [reflexivity|].
  split; [exact Hserve|].
  split.
  - exists k. auto.
  - intros Hpass. rewrite Hcalls, (Hall Hpass), firstn_all. reflexivity.
Qed.

Lemma shared_middleware_run_in_registration_order_witness :
  middlewareCalls
    (serve plainTransport (registry None [passing "A"; passing "B"])
       (stackOf itemEndpoint
          (middlewares (registerMiddleware (passing "B")
                          (registerMiddleware (passing "A") initialStatics))))
       plainRequest) = ["A"; "B"].
Proof.
  apply (shared_middleware_run_in_registration_order plainTransport
           (registerMiddleware (passing "B")
              (registerMiddleware (passing "A") initialStatics))
           (registry None [passing "A"; passing "B"]) itemEndpoint
           plainRequest (validate (getValidator itemEndpoint) plainRequest)).
  - reflexivity.
  - reflexivity.
Defined.

(** C8 as stated fails in two ways. A middleware registered after
    [setupEndpoint] is a registered middleware that the route never runs;
    and a registered middleware is skipped whenever one before it does not
    call [next()]. *)
Lemma registered_middleware_can_be_skipped :
  (let w := run [RegisterMiddleware (passing "A"); SetupEndpoint itemEndpoint;
                 RegisterMiddleware (passing "B")] initialWorld in
   map mwName (middlewares (statics w)) = ["A"; "B"] /\
   middlewareCalls (serveRoute plainTransport w 0 plainRequest) = ["A"] /\
   middlewareCalls (serveRoute plainTransport w 0 plainRequest) <>
     map mwName (middlewares (statics w))) /\
  (let w := run [RegisterMiddleware (denying "A"); RegisterMiddleware (passing "B");
                 SetupEndpoint itemEndpoint] initialWorld in
   map mwName (middlewares (statics w)) = ["A"; "B"] /\
   walk plainTransport (statics w) (gateOf itemEndpoint) plainRequest <> None /\
   middlewareCalls (serveRoute plainTransport w 0 plainRequest) = ["A"] /\
   middlewareCalls (serveRoute plainTransport w 0 plainRequest) <>
     map mwName (middlewares (statics w))).
Proof.
  split.
  - split; [reflexivity|]. split; [reflexivity|discriminate].
  - split; [reflexivity|]. split; [discriminate|].
    split; [reflexivity|discriminate].
Qed.

(** ** Registration time and request time *)



(** The shared list grows by what the commands register, in their order. *)
Lemma run_middlewares (cmds : list Command) (w : World) :
  middlewares (statics (run cmds w)) =
    middlewares (statics w) ++ registeredBy cmds.
Proof.
  revert w. induction cmds as [|c cmds IH]; intros w.
  - simpl. rewrite app_nil_r. reflexivity.
  - change (run (c :: cmds) w) with (run cmds (exec w c)). rewrite IH.
    destruct c as [mw|mw|this]; simpl; rewrite <- ?app_assoc; reflexivity.
Qed.






(** ** The outcomes of one call of [process] *)

Lemma callbacks_quiet (tr : Transport) (cbs : list Callback) :
  forallb isQuiet (flat_map (runCallback tr) cbs) = true.
Proof.
  apply forallb_weaken with (P := isCallbackEvent); [|apply callbacks_events].
  intros [] H; simpl in *; auto; discriminate.
Qed.

(** The dispatcher takes one of three courses. It throws before it has
    called [res.send], [res.sendFile] or [pipe]; or that call itself throws
    (only [res.send] and [res.sendFile] can); or the call is made and
    whatever follows is quiet. When it throws, [process] passes the error to
    [next] as its last act. *)
Lemma dispatcherEvents_shape (tr : Transport) (this : Endpoint) (data : Value)
  (res : Response.t) :
  exists pre,
    forallb isQuiet pre = true /\
    ((exists err,
        dispatcherEvents tr this data res = pre ++ [EvNext (Some err)] /\
        result (sendResponse tr this data res) = Throw err) \/
     (exists w err,
        dispatcherEvents tr this data res = pre ++ [w; EvNext (Some err)] /\
        isTerminalWrite w = true /\
        ((responseType this = JSON /\ sendThrows tr res data = Some err) \/
         (responseType this = FILE /\ sendFileThrows tr data = Some err))) \/
     (exists w post,
        dispatcherEvents tr this data res = pre ++ w :: post /\
        isTerminalWrite w = true /\ forallb isQuiet post = true)).
Proof.
  unfold dispatcherEvents, dispatched.
  destruct (responseType_cases this) as [H|[H|[H|(HJ & HF & HS)]]].
  - rewrite (sendResponse_json tr this data res H). simpl. exists [].
    split; [reflexivity|].
    destruct (sendThrows tr res data) as [err|] eqn:E.
    + right; left. exists (EvSend data), err. auto.
    + right; right. exists (EvSend data), []. auto.
  - rewrite (sendResponse_file tr this data res H).
    pose proof (callbacks_quiet tr [CbSendFile (fileSent this) data]) as Hcb.
    destruct (isString data); simpl.
    + exists []. split; [reflexivity|].
      destruct (sendFileThrows tr data) as [err|] eqn:E; simpl in *.
      * right; left. exists (EvSendFile data), err. auto.
      * right; right. exists (EvSendFile data). eexists.
        split; [reflexivity|]. split; [reflexivity|]. exact Hcb.
    + exists []. split; [reflexivity|]. left. eexists. simpl. auto.
  - rewrite (sendResponse_stream tr this data res H).
    pose proof (callbacks_quiet tr [CbPipeline data]) as Hcb.
    destruct (isReadableStream data); simpl in *.
    + exists [EvPassThrough; EvPipeline data]. split; [reflexivity|].
      right; right. exists EvPipe. eexists.
      split; [reflexivity|]. split; [reflexivity|]. exact Hcb.
    + exists [EvPassThrough]. split; [reflexivity|]. left. eexists.
      simpl. auto.
  - rewrite (sendResponse_other tr this data res HJ HF HS). simpl.
    exists []. split; [reflexivity|]. left. eexists. simpl. auto.
Qed.

(** The courses of one call of [process], callbacks included. *)
Lemma processEvents_shape (tr : Transport) (this : Endpoint) (req : Request.t) :
  exists pre,
    forallb isQuiet pre = true /\
    (processEvents tr this req = pre \/
     (exists err, processEvents tr this req = pre ++ [EvNext (Some err)]) \/
     (exists w err rh v,
        processEvents tr this req = pre ++ [w; EvNext (Some err)] /\
        isTerminalWrite w = true /\
        headers this (dataOf req) = Return rh /\
        execute this (dataOf req) = Return v /\
        ((responseType this = JSON /\
          sendThrows tr (responseOf rh) v = Some err) \/
         (responseType this = FILE /\ sendFileThrows tr v = Some err))) \/
     (exists w post,
        processEvents tr this req = pre ++ w :: post /\
        isTerminalWrite w = true /\ forallb isQuiet post = true)).
Proof.
  destruct (getValidationErrors req) as [|e errs] eqn:E.
  - rewrite processEvents_valid by assumption.
    destruct (headers this (dataOf req)) as [rh|err|].
    + assert (Hpre : forallb isQuiet
                       (EvHeaders (dataOf req) :: applied rh
                        ++ [EvExecute (dataOf req)]) = true).
      { change (forallb isQuiet ([EvHeaders (dataOf req)] ++ applied rh
                                 ++ [EvExecute (dataOf req)]) = true).
        rewrite !forallb_app. simpl. rewrite andb_true_r.
        unfold applied. simpl. rewrite forallb_forall.
        intros x Hx. apply in_map_iff in Hx. destruct Hx as (kv & <- & _).
        reflexivity. }
      assert (Hsplit : forall tail,
                EvHeaders (dataOf req) :: applied rh
                  ++ EvExecute (dataOf req) :: tail =
                (EvHeaders (dataOf req) :: applied rh
                  ++ [EvExecute (dataOf req)]) ++ tail).
      { intros tail. simpl. rewrite <- app_assoc. reflexivity. }
      rewrite Hsplit.
      destruct (execute this (dataOf req)) as [v|err|].
      * destruct (dispatcherEvents_shape tr this v (responseOf rh))
          as (pre & Hq &
              [(err & -> & _) |
               [(w & err & -> & Hw & Hwhy) | (w & post & -> & Hw & Hq')]]).
        -- eexists. split; [|right; left; exists err; rewrite app_assoc; reflexivity].
           rewrite forallb_app, Hpre, Hq. reflexivity.
        -- eexists. split;
             [|right; right; left; exists w, err, rh, v; rewrite app_assoc; auto].
           rewrite forallb_app, Hpre, Hq. reflexivity.
        -- eexists. split;
             [|right; right; right; exists w, post; rewrite app_assoc; auto].
           rewrite forallb_app, Hpre, Hq. reflexivity.
      * eexists. split; [exact Hpre|]. right; left. exists err. reflexivity.
      * eexists. split; [exact Hpre|]. left. apply app_nil_r.
    + exists [EvHeaders (dataOf req)]. split; [reflexivity|].
      right; left. exists err. reflexivity.
    + exists [EvHeaders (dataOf req)]. split; [reflexivity|]. left. reflexivity.
  - rewrite processEvents_invalid by (rewrite E; discriminate).
    exists []. split; [reflexivity|]. right; left. eexists. reflexivity.
Qed.

Lemma filter_quiet (P : Event -> bool) (l : list Event) :
  (forall e, isQuiet e = true -> P e = false) ->
  forallb isQuiet l = true -> filter P l = [].
Proof.
  intros HP. induction l as [|e l IH]; [reflexivity|].
  simpl. intros H. apply andb_prop in H as [He Hl].
  rewrite (HP e He). auto.
Qed.

Lemma quiet_not_error (e : Event) : isQuiet e = true -> isErrorNext e = false.
Proof.
  unfold isQuiet. destruct (isErrorNext e); [discriminate|reflexivity].
Qed.

Lemma quiet_not_terminal (e : Event) :
  isQuiet e = true -> isTerminalWrite e = false.
Proof.
  unfold isQuiet. destruct (isErrorNext e), (isTerminalWrite e);
    try discriminate; reflexivity.
Qed.

(** In one call of [process], callbacks included, [next] is called at most
    once and the response is handed to the transport ([res.send],
    [res.sendFile] or the pipe into [res]) at most once. Both happen in the
    same call only when the hand-over itself throws: [res.send] on a JSON
    endpoint, or [res.sendFile] on a FILE endpoint. *)
Lemma process_one_outcome (tr : Transport) (this : Endpoint) (req : Request.t) :
  (errorsForwarded (processEvents tr this req) <= 1)%nat /\
  (terminalWrites (processEvents tr this req) <= 1)%nat /\
  (errorsForwarded (processEvents tr this req) = 1%nat ->
   terminalWrites (processEvents tr this req) = 1%nat ->
   exists rh v err,
     headers this (dataOf req) = Return rh /\
     execute this (dataOf req) = Return v /\
     ((responseType this = JSON /\
       sendThrows tr (responseOf rh) v = Some err) \/
      (responseType this = FILE /\ sendFileThrows tr v = Some err))).
Proof.
  unfold errorsForwarded, terminalWrites.
  destruct (processEvents_shape tr this req)
    as (pre & Hq &
        [-> | [(err & ->) |
               [(w & err & rh & v & -> & Hw & Hh & He & Hwhy) |
                (w & post & -> & Hw & Hq')]]]);
    rewrite ?filter_app, ?(filter_quiet _ _ quiet_not_error Hq),
      ?(filter_quiet _ _ quiet_not_terminal Hq); simpl.
  - split; [lia|split; [lia|discriminate]].
  - split; [lia|split; [lia|intros _; discriminate]].
  - rewrite Hw. destruct w; simpl in *; try discriminate;
      (split; [lia|split; [lia|intros _ _; exists rh, v, err; auto]]).
  - rewrite Hw, (filter_quiet _ _ quiet_not_error Hq'),
      (filter_quiet _ _ quiet_not_terminal Hq').
    destruct w; simpl in *; try discriminate;
      (split; [lia|split; [lia|discriminate]]).
Qed.

(** Once [process] has called [next(err)], nothing follows: no further
    write, no callback; and it has not called [next] before. *)
Lemma process_error_is_last (tr : Transport) (this : Endpoint) (req : Request.t)
  (err : Thrown) :
  In (EvNext (Some err)) (processEvents tr this req) ->
  exists before,
    processEvents tr this req = before ++ [EvNext (Some err)] /\
    forallb (fun e => negb (isErrorNext e)) before = true.
Proof.
  assert (Hnot : forall l, forallb isQuiet l = true ->
                           ~ In (EvNext (Some err)) l).
  { intros l Hl Hin. rewrite forallb_forall in Hl.
    specialize (Hl _ Hin). discriminate. }
  assert (Hweak : forall l, forallb isQuiet l = true ->
                            forallb (fun e => negb (isErrorNext e)) l = true).
  { intros l. apply forallb_weaken. intros e He.
    rewrite (quiet_not_error e He). reflexivity. }
  destruct (processEvents_shape tr this req)
    as (pre & Hq &
        [-> | [(err' & ->) |
               [(w & err' & rh & v & -> & Hw & _) |
                (w & post & -> & Hw & Hq')]]]).
  - intros Hin. exfalso. exact (Hnot _ Hq Hin).
  - intros Hin. apply in_app_or in Hin. destruct Hin as [Hin|[Hin|[]]].
    + exfalso. exact (Hnot _ Hq Hin).
    + inversion Hin. subst err'. exists pre. auto.
  - intros Hin. apply in_app_or in Hin. destruct Hin as [Hin|[Hin|[Hin|[]]]].
    + exfalso. exact (Hnot _ Hq Hin).
    + subst w. discriminate.
    + inversion Hin. subst err'. exists (pre ++ [w]).
      rewrite <- app_assoc. split; [reflexivity|].
      rewrite forallb_app, (Hweak _ Hq). simpl.
      destruct w; simpl in *; try discriminate; reflexivity.
  - intros Hin. exfalso. apply in_app_or in Hin. destruct Hin as [Hin|[Hin|Hin]].
    + exact (Hnot _ Hq Hin).
    + subst w. discriminate.
    + exact (Hnot _ Hq' Hin).
Qed.

(** What is thrown inside [process]'s [try] is passed to [next]: a failed
    validation, a throwing header hook, a throwing handler, and a throwing
    dispatcher. *)
Lemma process_forwards_synchronous_failures (tr : Transport) (this : Endpoint)
  (req : Request.t) :
  (getValidationErrors req <> [] ->
   In (EvNext (Some (ThrownHttp (BadRequestException (getValidationErrors req)))))
      (processEvents tr this req)) /\
  (getValidationErrors req = [] ->
   (forall err, headers this (dataOf req) = Throw err ->
                In (EvNext (Some err)) (processEvents tr this req)) /\
   (forall rh err, headers this (dataOf req) = Return rh ->
                   execute this (dataOf req) = Throw err ->
                   In (EvNext (Some err)) (processEvents tr this req)) /\
   (forall rh v err, headers this (dataOf req) = Return rh ->
                     execute this (dataOf req) = Return v ->
                     result (sendResponse tr this v (responseOf rh)) = Throw err ->
                     In (EvNext (Some err)) (processEvents tr this req))).
Proof.
  split.
  - intros H. rewrite processEvents_invalid by assumption. left. reflexivity.
  - intros H. rewrite processEvents_valid by assumption. repeat split.
    + intros err ->. right. left. reflexivity.
    + intros rh err -> ->. right. apply in_or_app. right. right. left. reflexivity.
    + intros rh v err -> -> Hthrow. right. apply in_or_app. right. right.
      unfold dispatcherEvents, dispatched. rewrite Hthrow.
      apply in_or_app. left. apply in_or_app. right. left. reflexivity.
Qed.

(** ** The stream relay *)

(** C9, at the input where the code departs from it. The endpoint streams a
    source that fails after its first chunk. The response has been handed to
    the relay by then; the callback of [stream.pipeline] writes to the
    console and throws, but it runs after [process] has left its [try], so
    that error reaches no [next]: it is an uncaught exception. *)
Theorem stream_relay_failure_is_never_forwarded :
  processEvents plainTransport imageEndpoint plainRequest =
    [EvHeaders (dataOf plainRequest); EvStatusCode 200;
     EvExecute (dataOf plainRequest);
     EvPassThrough; EvPipeline (VReadable ["chunk"] (Some "Error: EIO")); EvPipe;
     EvWrite "chunk";
     EvConsoleError "Error writing stream in image endpoint";
     EvConsoleError "Error: EIO";
     EvUncaught (ThrownError "Error writing stream in image endpoint")] /\
  filter isErrorNext (processEvents plainTransport imageEndpoint plainRequest) = [] /\
  filter isUncaught (processEvents plainTransport imageEndpoint plainRequest) =
    [EvUncaught (ThrownError "Error writing stream in image endpoint")] /\
  filter isTerminalWrite (processEvents plainTransport imageEndpoint plainRequest) =
    [EvPipe].
Proof.
  repeat split.
Qed.

(** * Further properties of the code *)

(** ** The dispatcher *)

Lemma response_types_distinct :
  JSON <> FILE /\ JSON <> STREAM /\ FILE <> STREAM.
Proof. repeat split; discriminate. Qed.

(** [sendResponse] throws in exactly these situations: a FILE endpoint
    whose handler did not return a string, a STREAM endpoint whose handler
    did not return a readable stream, a response type outside the enum, and a
    call of [res.send] (JSON) or [res.sendFile] (FILE, for a string) that
    itself throws. It never stays pending. When it throws it leaves no
    callback, and it has called [res.send] or [res.sendFile] only if that
    call is what threw; when it returns it has handed the response over
    exactly once. *)
Theorem dispatcher_throws_exactly_when
  (tr : Transport) (this : Endpoint) (data : Value) (res : Response.t) :
  ((exists err, result (sendResponse tr this data res) = Throw err) <->
   (responseType this = FILE /\ isString data = false) \/
   (responseType this = STREAM /\ isReadableStream data = false) \/
   (responseType this <> JSON /\ responseType this <> FILE /\
    responseType this <> STREAM) \/
   (responseType this = JSON /\ sendThrows tr res data <> None) \/
   (responseType this = FILE /\ isString data = true /\
    sendFileThrows tr data <> None)) /\
  result (sendResponse tr this data res) <> Pending /\
  (forall err, result (sendResponse tr this data res) = Throw err ->
     deferred (sendResponse tr this data res) = [] /\
     (terminalWrites (trace (sendResponse tr this data res)) = 0%nat \/
      (terminalWrites (trace (sendResponse tr this data res)) = 1%nat /\
       ((responseType this = JSON /\ sendThrows tr res data = Some err) \/
        (responseType this = FILE /\ sendFileThrows tr data = Some err))))) /\
  (result (sendResponse tr this data res) = Return tt ->
     terminalWrites (trace (sendResponse tr this data res)) = 1%nat).
Proof.
  destruct response_types_distinct as (HJF & HJS & HFS).
  unfold terminalWrites.
  destruct (responseType_cases this) as [H|[H|[H|(HJ & HF & HS)]]].
  - rewrite (sendResponse_json tr this data res H). simpl.
    destruct (sendThrows tr res data) as [thrown|] eqn:E.
    + split; [|split; [discriminate|split; [|discriminate]]].
      * split; [|intros _; eexists; reflexivity].
        intros _. right; right; right; left. split; [exact H|discriminate].
      * intros err Herr. inversion Herr; subst err. split; [reflexivity|].
        right. split; [reflexivity|]. left. auto.
    + split; [|split; [discriminate|split; [intros err; discriminate|reflexivity]]].
      split.
      * intros [err Herr]. discriminate.
      * rewrite H.
        intros [[E1 _]|[[E1 _]|[(E1 & _)|[[_ E1]|[E1 _]]]]]; congruence.
  - rewrite (sendResponse_file tr this data res H).
    destruct (isString data) eqn:Hs.
    + destruct (sendFileThrows tr data) as [thrown|] eqn:E; simpl.
      * split; [|split; [discriminate|split; [|discriminate]]].
        -- split; [|intros _; eexists; reflexivity].
           intros _. right; right; right; right.
           split; [exact H|]. split; [reflexivity|discriminate].
        -- intros err Herr. inversion Herr; subst err. split; [reflexivity|].
           right. split; [reflexivity|]. right. auto.
      * split; [|split; [discriminate|split; [intros err; discriminate|reflexivity]]].
        split.
        -- intros [err Herr]. discriminate.
        -- rewrite H.
           intros [[_ E1]|[[E1 _]|[(_ & E1 & _)|[[E1 _]|(_ & _ & E1)]]]];
             congruence.
    + simpl. split; [|split; [discriminate|split; [auto|discriminate]]].
      split; [auto|]. intros _. eexists. reflexivity.
  - rewrite (sendResponse_stream tr this data res H).
    destruct (isReadableStream data) eqn:Hs; simpl.
    + split; [|split; [discriminate|split; [intros err; discriminate|reflexivity]]].
      split.
      * intros [err Herr]. discriminate.
      * rewrite H.
        intros [[E1 _]|[[_ E1]|[(_ & _ & E1)|[[E1 _]|[E1 _]]]]]; congruence.
    + split; [|split; [discriminate|split; [auto|discriminate]]].
      split; [auto|]. intros _. eexists. reflexivity.
  - rewrite (sendResponse_other tr this data res HJ HF HS). simpl.
    split; [|split; [discriminate|split; [auto|discriminate]]].
    split; [|intros _; eexists; reflexivity].
    intros _. right; right; left. auto.
Qed.

(** ** [process] on requests that pass validation *)

(** With response type JSON, a request without validation errors whose
    header hook and handler return is answered by one call of [res.send]
    with the handler's value, whatever that value is, after the hook's status
    and headers were applied; no callback is left. When [res.send] returns,
    nothing goes to [next]; when [res.send] throws (as Node does for a status
    code outside 100..999), what it throws goes to [next]. *)
Theorem json_response_sends_the_handler_value
  (tr : Transport) (this : Endpoint) (req : Request.t)
  (rh : ResponseHeaders.t) (value : Value) :
  getValidationErrors req = [] ->
  responseType this = JSON ->
  headers this (dataOf req) = Return rh ->
  execute this (dataOf req) = Return value ->
  deferred (process tr this req) = [] /\
  (sendThrows tr (responseOf rh) value = None ->
   processEvents tr this req =
     EvHeaders (dataOf req) :: applied rh ++
     [EvExecute (dataOf req); EvSend value]) /\
  (forall err,
     sendThrows tr (responseOf rh) value = Some err ->
     processEvents tr this req =
       EvHeaders (dataOf req) :: applied rh ++
       [EvExecute (dataOf req); EvSend value; EvNext (Some err)]).
Proof.
  intros Hvalid Hjson Hh He.
  rewrite processEvents_valid, process_valid_deferred by assumption.
  rewrite Hh, He. unfold dispatcherEvents, dispatched.
  rewrite (sendResponse_json tr this value (responseOf rh) Hjson).
  split; [reflexivity|]. split.
  - intros ->. reflexivity.
  - intros err ->. reflexivity.
Qed.

Lemma json_response_sends_the_handler_value_witness :
  processEvents plainTransport itemEndpoint plainRequest =
    [EvHeaders (dataOf plainRequest); EvStatusCode 201;
     EvSetHeader "cache-control" "no-store"; EvSetHeader "x-api" "1";
     EvExecute (dataOf plainRequest); EvSend (VObject "{id:5}")] /\
  processEvents expressOnPosix oddStatusEndpoint plainRequest =
    [EvHeaders (dataOf plainRequest); EvStatusCode 99999;
     EvExecute (dataOf plainRequest); EvSend (VObject "{}");
     EvNext (Some (ThrownError "Invalid status code"))].
Proof.
  split.
  - exact (proj1 (proj2 (json_response_sends_the_handler_value plainTransport
                  itemEndpoint plainRequest
                  (ResponseHeaders.mk [("cache-control", "no-store"); ("x-api", "1")] 201)
                  (VObject "{id:5}") eq_refl eq_refl eq_refl eq_refl)) eq_refl).
  - exact (proj2 (proj2 (json_response_sends_the_handler_value expressOnPosix
                  oddStatusEndpoint plainRequest
                  (ResponseHeaders.mk [] 99999)
                  (VObject "{}") eq_refl eq_refl eq_refl eq_refl))
             (ThrownError "Invalid status code") eq_refl).
Defined.

(** When the header hook or the handler does not return. A throwing or
    pending hook means the handler is never invoked and neither status nor
    headers are set; a throwing or pending handler leaves the hook's status
    and headers on the response. What was thrown goes to [next] unchanged; a
    pending hook or handler leaves the request without [next] and without a
    response. *)
Theorem hook_or_handler_not_returning
  (tr : Transport) (this : Endpoint) (req : Request.t) :
  getValidationErrors req = [] ->
  (forall err, headers this (dataOf req) = Throw err ->
     processEvents tr this req = [EvHeaders (dataOf req); EvNext (Some err)]) /\
  (headers this (dataOf req) = Pending ->
     processEvents tr this req = [EvHeaders (dataOf req)]) /\
  (forall rh err,
     headers this (dataOf req) = Return rh ->
     execute this (dataOf req) = Throw err ->
     processEvents tr this req =
       EvHeaders (dataOf req) :: applied rh ++
       [EvExecute (dataOf req); EvNext (Some err)]) /\
  (forall rh,
     headers this (dataOf req) = Return rh ->
     execute this (dataOf req) = Pending ->
     processEvents tr this req =
       EvHeaders (dataOf req) :: applied rh ++ [EvExecute (dataOf req)]).
Proof.
  intros Hvalid. rewrite processEvents_valid by assumption.
  repeat split.
  - intros err ->. reflexivity.
  - intros ->. reflexivity.
  - intros rh err -> ->. reflexivity.
  - intros rh -> ->. reflexivity.
Qed.

Lemma hook_or_handler_not_returning_witness :
  processEvents plainTransport brokenEndpoint plainRequest =
    [EvHeaders (dataOf plainRequest); EvStatusCode 202; EvSetHeader "x-api" "1";
     EvExecute (dataOf plainRequest); EvNext (Some (ThrownError "boom"))] /\
  processEvents plainTransport stalledEndpoint plainRequest =
    [EvHeaders (dataOf plainRequest); EvStatusCode 200;
     EvExecute (dataOf plainRequest)].
Proof.
  split.
  - exact (proj1 (proj2 (proj2 (hook_or_handler_not_returning plainTransport
             brokenEndpoint plainRequest eq_refl)))
             (ResponseHeaders.mk [("x-api", "1")] 202) (ThrownError "boom")
             eq_refl eq_refl).
  - exact (proj2 (proj2 (proj2 (hook_or_handler_not_returning plainTransport
             stalledEndpoint plainRequest eq_refl)))
             (ResponseHeaders.mk [] 200) eq_refl eq_refl).
Defined.

(** ** Construction and defaults *)



(** Each subclass registers on its own HTTP method, at the path given to its
    constructor or at "/" when none is given; the stack is the one of any
    endpoint, and the routes already in the router are left in place. *)
Theorem subclass_registers_on_its_method
  (st : Statics) (r : Router) (path : option string)
  (chains : list ValidationChain) (handler : RequestData.t -> Completion Value)
  (hook : RequestData.t -> Completion ResponseHeaders.t)
  (sent : Value -> Completion unit) :
  let routeOf this method :=
    setupEndpoint st this r =
      r ++ [mkRoute method (pathOrDefault path) (stackOf this (middlewares st))] in
  routeOf (GetEndpoint path chains handler hook sent) GET /\
  routeOf (PostEndpoint path chains handler hook sent) POST /\
  routeOf (DeleteEndpoint path chains handler hook sent) DELETE /\
  routeOf (PutEndpoint path chains handler hook sent) PUT /\
  pathOrDefault None = "/" /\
  forall this, List.length (setupEndpoint st this r) = S (List.length r).
Proof.
  intros routeOf. unfold routeOf.
  repeat split; try apply setupEndpoint_route.
  intros this. rewrite setupEndpoint_route, length_app. simpl. lia.
Qed.



(** [setResponseType] decides the dispatcher and nothing else: the stages
    before [process] run as before, and so does [process] itself for every
    request whose handler does not return a value; what the dispatcher does
    with a value, up to the callback it leaves, depends on the response type
    alone, and the callback on the [fileSent] hook besides; and of two calls
    the last one counts. *)
Theorem setResponseType_only_changes_the_dispatcher
  (tr : Transport) (st : Statics) (this other : Endpoint)
  (value earlier : ResponseType)
  (mws : list MiddlewareFunc) (req : Request.t) :
  fst (dispatch tr st (beforeProcess (setResponseType value this) mws) req) =
    fst (dispatch tr st (beforeProcess this mws) req) /\
  walk tr st (beforeProcess (setResponseType value this) mws) req =
    walk tr st (beforeProcess this mws) req /\
  ((forall v, execute this (dataOf req) <> Return v) ->
   processEvents tr (setResponseType value this) req =
     processEvents tr this req) /\
  (forall data res,
     dispatched tr (setResponseType value this) data res =
     dispatched tr (setResponseType value other) data res) /\
  (fileSent this = fileSent other ->
   forall data res,
     sendResponse tr (setResponseType value this) data res =
     sendResponse tr (setResponseType value other) data res) /\
  setResponseType value (setResponseType earlier this) =
    setResponseType value this.
Proof.
  split; [|split; [|split; [|split; [|split]]]].
  - rewrite !dispatch_beforeProcess. reflexivity.
  - rewrite !walk_beforeProcess. reflexivity.
  - intros Hno.
    destruct (getValidationErrors req) as [|e errs] eqn:E.
    + rewrite !processEvents_valid by assumption.
      change (headers (setResponseType value this)) with (headers this).
      change (execute (setResponseType value this)) with (execute this).
      destruct (headers this (dataOf req)) as [rh|err|]; try reflexivity.
      destruct (execute this (dataOf req)) as [v|err|] eqn:Ev; try reflexivity.
      exfalso. exact (Hno v eq_refl).
    + rewrite !processEvents_invalid by (rewrite E; discriminate). reflexivity.
  - intros data res. unfold dispatched, sendResponse, call. simpl.
    destruct (String.eqb value JSON); [reflexivity|].
    destruct (String.eqb value FILE); [|reflexivity].
    destruct (isString data); [|reflexivity].
    destruct (sendFileThrows tr data); reflexivity.
  - intros Hsent data res. unfold sendResponse. simpl. rewrite Hsent.
    reflexivity.
  - reflexivity.
Qed.

Lemma setResponseType_only_changes_the_dispatcher_witness :
  processEvents plainTransport (setResponseType FILE brokenEndpoint) plainRequest =
  processEvents plainTransport brokenEndpoint plainRequest.
Proof.
  apply (setResponseType_only_changes_the_dispatcher plainTransport
           initialStatics brokenEndpoint brokenEndpoint FILE JSON [] plainRequest).
  intros v. discriminate.
Defined.

(** ** [process] and the rest of the route *)

Lemma nextCall_plain (evs : list Event) :
  nextCall evs = Some None -> In (EvNext None) evs.
Proof.
  induction evs as [|e evs IH]; [discriminate|].
  destruct e; simpl; auto.
  intros H. inversion H. auto.
Qed.

Lemma nextCall_app (l1 l2 : list Event) :
  nextCall (l1 ++ l2) =
    match nextCall l1 with
    | Some arg => Some arg
    | None => nextCall l2
    end.
Proof.
  induction l1 as [|e l1 IH]; [reflexivity|].
  destruct e; simpl; auto.
Qed.

Lemma nextCall_quiet (l : list Event) :
  forallb isQuiet l = true ->
  forallb (fun e => negb (isPlainNext e)) l = true ->
  nextCall l = None.
Proof.
  induction l as [|e l IH]; [reflexivity|].
  simpl. intros Hq Hp.
  apply andb_prop in Hq as [Hq Hq']. apply andb_prop in Hp as [Hp Hp'].
  destruct e as [| | | | | | | | | | | | | | | | | ]; simpl in *; auto;
    match goal with
    | err : option Thrown |- _ => destruct err; discriminate
    end.
Qed.

Lemma nextCall_callbacks (l : list Event) :
  forallb isCallbackEvent l = true -> nextCall l = None.
Proof.
  induction l as [|e l IH]; [reflexivity|].
  simpl. intros H. apply andb_prop in H as [He Hl].
  destruct e; simpl in *; try discriminate; auto.
Qed.

Lemma dispatcherEvents_no_plain_next (tr : Transport) (this : Endpoint)
  (data : Value) (res : Response.t) :
  forallb (fun e => negb (isPlainNext e)) (dispatcherEvents tr this data res)
  = true.
Proof.
  unfold dispatcherEvents. rewrite forallb_app. apply andb_true_intro. split.
  - generalize (dispatched_events tr this data res).
    apply forallb_weaken. intros e H. apply andb_prop in H. tauto.
  - apply forallb_weaken with (P := isCallbackEvent); [|apply callbacks_events].
    intros [] H; simpl in *; auto; discriminate.
Qed.

Lemma processEvents_no_plain_next (tr : Transport) (this : Endpoint)
  (req : Request.t) :
  forallb (fun e => negb (isPlainNext e)) (processEvents tr this req) = true.
Proof.
  destruct (getValidationErrors req) as [|e errs] eqn:E.
  - rewrite processEvents_valid by assumption.
    destruct (headers this (dataOf req)) as [rh|err|]; try reflexivity.
    set (tail := match execute this (dataOf req) with
                 | Return v => dispatcherEvents tr this v (responseOf rh)
                 | Throw err => [EvNext (Some err)]
                 | Pending => []
                 end).
    assert (Ha : forallb (fun e => negb (isPlainNext e)) (applied rh) = true).
    { unfold applied. simpl. rewrite forallb_forall.
      intros x Hx. apply in_map_iff in Hx. destruct Hx as (kv & <- & _).
      reflexivity. }
    assert (Ht : forallb (fun e => negb (isPlainNext e)) tail = true).
    { unfold tail. destruct (execute this (dataOf req)) as [v|err|];
        try reflexivity.
      apply dispatcherEvents_no_plain_next. }
    change (forallb (fun e => negb (isPlainNext e))
              ([EvHeaders (dataOf req)] ++ applied rh ++
               [EvExecute (dataOf req)] ++ tail) = true).
    rewrite !forallb_app, Ha, Ht. reflexivity.
  - rewrite processEvents_invalid by (rewrite E; discriminate). reflexivity.
Qed.

(** The router goes on behind [process] exactly when [process] passed to
    [next] something JavaScript takes for false. *)
Lemma process_continues (tr : Transport) (this : Endpoint) (req : Request.t) :
  continues (handlerEvents (process tr this req)) = true <->
  exists err,
    In (EvNext (Some err)) (processEvents tr this req) /\ isFalsy err = true.
Proof.
  assert (Hhe : handlerEvents (process tr this req) = trace (process tr this req)).
  { unfold handlerEvents.
    destruct (process_result tr this req) as [-> | ->]; apply app_nil_r. }
  assert (Hnc : nextCall (trace (process tr this req)) =
                nextCall (processEvents tr this req)).
  { rewrite processEvents_unfold, nextCall_app.
    destruct (nextCall (trace (process tr this req))); [reflexivity|].
    symmetry. apply nextCall_callbacks, callbacks_events. }
  assert (Hnot : forall l e, forallb isQuiet l = true ->
                             ~ In (EvNext (Some e)) l).
  { intros l e Hl Hin. rewrite forallb_forall in Hl.
    specialize (Hl _ Hin). discriminate. }
  unfold continues. rewrite Hhe, Hnc.
  pose proof (processEvents_no_plain_next tr this req) as Hp.
  destruct (processEvents_shape tr this req)
    as (pre & Hq &
        [Heq | [(err & Heq) |
                [(w & err & rh & v & Heq & Hw & _) |
                 (w & post & Heq & Hw & Hq')]]]);
    rewrite Heq in *.
  - rewrite (nextCall_quiet pre Hq Hp). split; [discriminate|].
    intros (e & Hin & _). exfalso. exact (Hnot _ _ Hq Hin).
  - rewrite forallb_app in Hp. apply andb_prop in Hp as [Hp _].
    rewrite nextCall_app, (nextCall_quiet pre Hq Hp). simpl. split.
    + intros Hf. exists err. split; [|exact Hf].
      apply in_or_app. right. left. reflexivity.
    + intros (e & Hin & Hf). apply in_app_or in Hin.
      destruct Hin as [Hin|[Hin|[]]]; [exfalso; exact (Hnot _ _ Hq Hin)|].
      inversion Hin. subst e. exact Hf.
  - rewrite forallb_app in Hp. apply andb_prop in Hp as [Hp _].
    rewrite nextCall_app, (nextCall_quiet pre Hq Hp).
    destruct w; simpl in Hw; try discriminate; simpl; (split;
      [intros Hf; exists err; split; [|exact Hf];
       apply in_or_app; right; right; left; reflexivity
      |intros (e & Hin & Hf); apply in_app_or in Hin;
       destruct Hin as [Hin|[Hin|[Hin|[]]]];
       [exfalso; exact (Hnot _ _ Hq Hin)|discriminate|];
       inversion Hin; subst e; exact Hf]).
  - rewrite forallb_app in Hp. apply andb_prop in Hp as [Hp Hp'].
    simpl in Hp'. apply andb_prop in Hp' as [_ Hp'].
    rewrite nextCall_app, (nextCall_quiet pre Hq Hp).
    assert (Hnone : nextCall (w :: post) = None).
    { destruct w; simpl in Hw; try discriminate; simpl;
        apply (nextCall_quiet post Hq' Hp'). }
    rewrite Hnone. split; [discriminate|].
    intros (e & Hin & _). exfalso. apply in_app_or in Hin.
    destruct Hin as [Hin|[Hin|Hin]].
    + exact (Hnot _ _ Hq Hin).
    + subst w. discriminate.
    + exact (Hnot _ _ Hq' Hin).
Qed.

(** [process] never calls [next()] without an argument. The router goes on
    behind [process] exactly when [process] passed to [next] something
    JavaScript takes for false (a hook or handler that threw [undefined],
    [null], [false], [0] or the empty string), and then with the request as
    [process] received it; in every other case the route ends with
    [process], and handlers placed behind it are never reached. *)
Theorem process_ends_the_route
  (tr : Transport) (st : Statics) (this : Endpoint)
  (mws : list MiddlewareFunc) (req : Request.t) :
  ~ In (EvNext None) (processEvents tr this req) /\
  (forall out,
     walk tr st (stackOf this mws) req = Some out <->
     walk tr st (beforeProcess this mws) req = Some out /\
     exists err,
       In (EvNext (Some err)) (processEvents tr this out) /\
       isFalsy err = true) /\
  (walk tr st (stackOf this mws) req = None ->
   forall behind,
     serve tr st (stackOf this mws ++ behind) req =
     serve tr st (stackOf this mws) req).
Proof.
  split; [|split].
  - intros Hin.
    pose proof (processEvents_no_plain_next tr this req) as H.
    rewrite forallb_forall in H. specialize (H _ Hin). discriminate.
  - intros out. rewrite stackOf_split, walk_app.
    destruct (walk tr st (beforeProcess this mws) req) as [req'|].
    + rewrite walk_single. simpl handle. simpl snd. simpl fst.
      destruct (continues (handlerEvents (process tr this req'))) eqn:E.
      * split.
        -- intros H. inversion H. subst out. split; [reflexivity|].
           apply process_continues. exact E.
        -- intros [H _]. exact H.
      * split; [discriminate|].
        intros [H Hex]. inversion H. subst out.
        apply process_continues in Hex. congruence.
    + split; [discriminate|]. intros [H _]. discriminate.
  - intros Hend behind. unfold serve. rewrite dispatch_app, Hend. reflexivity.
Qed.

Lemma process_ends_the_route_witness :
  walk plainTransport initialStatics (stackOf voidThrowEndpoint []) plainRequest =
    Some plainRequest /\
  serve plainTransport initialStatics
    (stackOf brokenEndpoint [] ++ [HMiddleware (passing "after")]) plainRequest =
  serve plainTransport initialStatics (stackOf brokenEndpoint []) plainRequest.
Proof.
  split.
  - apply (proj1 (proj2 (process_ends_the_route plainTransport initialStatics
                           voidThrowEndpoint [] plainRequest))).
    split; [reflexivity|].
    exists (ThrownValue VUndefined). split; [simpl; tauto|reflexivity].
  - apply (proj2 (proj2 (process_ends_the_route plainTransport initialStatics
                           brokenEndpoint [] plainRequest))).
    reflexivity.
Defined.

(** ** Uncaught errors *)



(** ** The request data the handler sees *)




(** ** One call of [process] *)

Lemma process_error_is_last_witness :
  exists before,
    processEvents expressOnPosix oddStatusEndpoint plainRequest =
      before ++ [EvNext (Some (ThrownError "Invalid status code"))] /\
    forallb (fun e => negb (isErrorNext e)) before = true.
Proof.
  apply (process_error_is_last expressOnPosix oddStatusEndpoint plainRequest
           (ThrownError "Invalid status code")).
  simpl. tauto.
Defined.

Lemma process_forwards_synchronous_failures_witness :
  In (EvNext (Some (ThrownError "Expected data to be a readable stream")))
     (processEvents plainTransport exportEndpoint plainRequest) /\
  In (EvNext (Some (ThrownError "boom")))
     (processEvents plainTransport brokenEndpoint plainRequest).
Proof.
  split.
  - exact (proj2 (proj2 (proj2 (process_forwards_synchronous_failures
             plainTransport exportEndpoint plainRequest) eq_refl))
             (ResponseHeaders.mk [] 200) (VNumber 42)
             (ThrownError "Expected data to be a readable stream")
             eq_refl eq_refl eq_refl).
  - exact (proj1 (proj2 (proj2 (process_forwards_synchronous_failures
             plainTransport brokenEndpoint plainRequest) eq_refl))
             (ResponseHeaders.mk [("x-api", "1")] 202) (ThrownError "boom")
             eq_refl eq_refl).
Defined.

(** ** A denying auth middleware *)

(** When auth is required and the registered auth middleware does not make
    the router go on (it answers by itself, or it calls [next(err)] or throws
    with an [err] JavaScript takes for true), the request ends in the auth
    stage: after the validation chains only the auth middleware runs; no
    shared middleware is invoked, and neither the header hook, the handler
    nor the dispatcher runs. *)
Theorem denied_auth_stops_the_request
  (tr : Transport) (st : Statics) (this : Endpoint) (mw : MiddlewareFunc)
  (mws : list MiddlewareFunc) (req : Request.t) :
  authRequired this = true ->
  authMiddleware st = Some mw ->
  passesOn (snd (mwCall mw (validate (getValidator this) req))) = false ->
  serve tr st (stackOf this mws) req =
    repeat (EvNext None) (List.length (getValidator this)) ++
    EvAuthMiddleware (mwName mw) ::
    handlerEvents (snd (callMiddleware mw (validate (getValidator this) req))) /\
  middlewareCalls (serve tr st (stackOf this mws) req) = [] /\
  forallb (fun e => negb (isEngineEvent e)) (serve tr st (stackOf this mws) req)
    = true.
Proof.
  intros Hreq Hmw Hdeny.
  assert (Hstop : continues (handlerEvents (snd (authStage st this req)))
                  = false).
  { rewrite authStage_unfold, Hreq, Hmw. unfold callMiddleware.
    destruct (mwCall mw (validate (getValidator this) req))
      as [req' [|err|err|code payload]]; simpl in *;
      try discriminate; try exact Hdeny; reflexivity. }
  assert (Hserve : serve tr st (stackOf this mws) req =
    repeat (EvNext None) (List.length (getValidator this)) ++
    EvAuthMiddleware (mwName mw) ::
    handlerEvents (snd (callMiddleware mw (validate (getValidator this) req)))).
  { rewrite serve_stackOf, walk_beforeProcess, dispatch_beforeProcess, Hstop.
    rewrite !app_nil_r, authStage_unfold, Hreq, Hmw. reflexivity. }
  assert (Hstage : forallb isStageEvent (serve tr st (stackOf this mws) req) = true).
  { rewrite Hserve, forallb_app. apply andb_true_intro. split.
    - rewrite forallb_forall. intros e He. apply repeat_spec in He.
      subst e. reflexivity.
    - simpl. apply (callMiddleware_events mw). }
  split; [exact Hserve|]. split.
  - rewrite Hserve, middlewareCalls_app. simpl.
    rewrite (middlewareCalls_none
               (handlerEvents (snd (callMiddleware mw
                                      (validate (getValidator this) req)))))
      by apply (callMiddleware_events mw).
    rewrite app_nil_r. apply middlewareCalls_none. rewrite forallb_forall.
    intros e He. apply repeat_spec in He. subst e. reflexivity.
  - revert Hstage. apply forallb_weaken.
    intros [] H; simpl in *; auto; discriminate.
Qed.

Lemma denied_auth_stops_the_request_witness :
  serve plainTransport (registry (Some (denying "auth")) [passing "A"])
    (stackOf downloadEndpoint [passing "A"]) plainRequest =
  [EvAuthMiddleware "auth"; EvMiddlewareRespond "auth" 401 (VString "denied")].
Proof.
  apply (denied_auth_stops_the_request plainTransport
           (registry (Some (denying "auth")) [passing "A"]) downloadEndpoint
           (denying "auth") [passing "A"] plainRequest).
  - reflexivity.
  - reflexivity.
  - reflexivity.
Defined.

(** An auth middleware that calls [next(err)] with [err] undefined does not
    stop the request: the router takes the call for [next()]. *)
Lemma auth_error_taken_for_false_does_not_stop :
  passesOn (snd (mwCall (shrugging "auth") plainRequest)) = true /\
  serve plainTransport (registry (Some (shrugging "auth")) [])
    (stackOf downloadEndpoint []) plainRequest =
  [EvAuthMiddleware "auth"; EvNext (Some (ThrownValue VUndefined));
   EvHeaders (dataOf plainRequest); EvStatusCode 200;
   EvExecute (dataOf plainRequest);
   EvSendFile (VString "/tmp/report.pdf");
   EvFileSent (VString "/tmp/report.pdf")].
Proof. split; reflexivity. Qed.

(** ** The registry and the router over start-up *)

Lemma firstn_exact {A} (l1 l2 : list A) :
  firstn (List.length l1) (l1 ++ l2) = l1.
Proof.
  rewrite firstn_app, Nat.sub_diag, firstn_all. simpl. apply app_nil_r.
Qed.

(** Over any sequence of registrations and set-ups, the shared middleware
    list and the router only grow at the end: what was there stays in place
    and in order, one route is added per [setupEndpoint] call (also when the
    same endpoint is set up again), and every added route holds, between its
    auth stage and [process], an initial part of the final shared list: the
    middleware registered before that route was set up. *)
Theorem registrations_only_append (cmds : list Command) (w : World) :
  middlewares (statics (run cmds w)) =
    middlewares (statics w) ++ registeredBy cmds /\
  exists added,
    router (run cmds w) = router w ++ added /\
    List.length added = List.length (filter isSetup cmds) /\
    forall route, In route added ->
      exists this k,
        route = mkRoute (type this) (path this)
                  (stackOf this (firstn k (middlewares (statics (run cmds w))))).
Proof.
  split; [apply run_middlewares|].
  revert w. induction cmds as [|c cmds IH]; intros w.
  - exists []. simpl. rewrite app_nil_r. repeat split. intros route [].
  - destruct (IH (exec w c)) as (added & Hrouter & Hlen & Hroutes).
    change (run (c :: cmds) w) with (run cmds (exec w c)).
    destruct c as [mw|mw|this].
    + exists added. simpl in *. auto.
    + exists added. simpl in *. auto.
    + exists (mkRoute (type this) (path this)
                (stackOf this (middlewares (statics w))) :: added).
      split; [|split].
      * rewrite Hrouter. simpl. rewrite setupEndpoint_route, <- app_assoc.
        reflexivity.
      * simpl. rewrite Hlen. reflexivity.
      * intros route [<-|Hin]; [|apply Hroutes, Hin].
        exists this, (List.length (middlewares (statics w))).
        rewrite run_middlewares. simpl statics.
        rewrite firstn_exact. reflexivity.
Qed.
